(** * WingetLoop: the report parser and the selection loop

    A shallow embedding of [src/WingetLoop.py].

    Python strings are sequences of Unicode code points; a string is modelled
    as a list of code points ([N]).  The whitespace class is the one shared by
    [str.strip], [str.isspace] and the [\s] of the [re] module on [str]
    patterns. *)

From Stdlib Require Import ZArith NArith List String Ascii Bool Lia DecimalString.
From stdpp Require Import base list.

Local Open Scope N_scope.

(** ** Strings *)

Definition char := N.
Definition str := list char.

(** A literal of the source.  Every literal of the program is ASCII, so the
    bytes of the Rocq literal are its code points. *)
Definition lit (s : string) : str := map N_of_ascii (list_ascii_of_string s).

Definition NL : char := 10.

(** Code points for which [str.isspace] holds. *)
Definition is_space (c : char) : bool :=
  ((0x09 <=? c) && (c <=? 0x0D)) || ((0x1C <=? c) && (c <=? 0x20))
  || (c =? 0x85) || (c =? 0xA0) || (c =? 0x1680)
  || ((0x2000 <=? c) && (c <=? 0x200A))
  || (c =? 0x2028) || (c =? 0x2029) || (c =? 0x202F) || (c =? 0x205F)
  || (c =? 0x3000).

(** [s.lstrip()], [s.rstrip()], [s.strip()] *)
Fixpoint lstrip (s : str) : str :=
  match s with
  | c :: r => if is_space c then lstrip r else s
  | [] => []
  end.

Definition rstrip (s : str) : str := rev (lstrip (rev s)).

Definition strip (s : str) : str := rstrip (lstrip s).

(** [s.startswith(prefix)] and its tuple form [s.startswith((p1, p2, ...))] *)
Fixpoint startswith (s prefix : str) : bool :=
  match prefix, s with
  | [], _ => true
  | p :: ps, c :: cs => (c =? p) && startswith cs ps
  | _ :: _, [] => false
  end.

Definition startswith_any (s : str) (prefixes : list str) : bool :=
  existsb (startswith s) prefixes.

(** [s.split(sep)] for a one-character separator: one more piece than there
    are separators, the empty string gives one empty piece. *)
Definition cons_head (c : char) (pieces : list str) : list str :=
  match pieces with
  | p :: ps => (c :: p) :: ps
  | [] => [[c]]
  end.

Fixpoint split (sep : char) (s : str) : list str :=
  match s with
  | [] => [[]]
  | c :: r => if c =? sep then [] :: split sep r else cons_head c (split sep r)
  end.

(** [re.split(r'\s{2,}', s)].  The pattern matches, leftmost first and
    greedily, every maximal run of whitespace of length two or more; a single
    whitespace character stays inside its field.  [in_match] tells that the
    scan is inside such a run. *)
Definition head_is_space (s : str) : bool :=
  match s with
  | d :: _ => is_space d
  | [] => false
  end.

Fixpoint re_split_from (in_match : bool) (s : str) : list str :=
  match s with
  | [] => [[]]
  | c :: r =>
      if is_space c then
        if in_match then re_split_from true r
        else if head_is_space r then [] :: re_split_from true r
        else cons_head c (re_split_from false r)
      else cons_head c (re_split_from false r)
  end.

Definition re_split_ws2 (s : str) : list str := re_split_from false s.

(** Truth value of a string: [if s] holds for the non-empty ones. *)
Definition truthy (s : str) : bool :=
  match s with
  | [] => false
  | _ :: _ => true
  end.

(** ** The parser: [parse_winget_output] *)

(** The dictionary [{'name':, 'id':, 'version':, 'available':}] the parser
    builds for a row; its keys are fixed, so it is a record. *)
Record package := Package {
  name : str;
  id : str;
  version : str;
  available : str
}.

(** [line.strip().startswith(('---', '===='))] *)
Definition is_separator (line : str) : bool :=
  startswith_any (strip line) [lit "---"; lit "===="].

(** The first loop: [data_start_index] stays [-1] when no line is a
    separator, else it is the index after the first one. *)
Fixpoint find_data_start (lines : list str) (i : Z) : Z :=
  match lines with
  | [] => (-1)%Z
  | line :: rest =>
      if is_separator line then (i + 1)%Z else find_data_start rest (i + 1)%Z
  end.

(** The body of the second loop, on the list [packages] built so far. *)
Definition process_line (packages : list package) (line : str) : list package :=
  let line := strip line in
  if negb (truthy line) || startswith line (lit "Found") then packages
  else
    let parts := re_split_ws2 line in
    if (5 <=? length parts)%nat then
      let name := strip (nth 0 parts []) in
      let pkg_id := strip (nth 1 parts []) in
      if truthy name && truthy pkg_id then
        packages ++ [ {| name := name;
                         id := pkg_id;
                         version := strip (nth 2 parts []);
                         available := strip (nth 3 parts []) |} ]
      else packages
    else packages.

Definition parse_winget_output (output : str) : list package :=
  let packages := [] in
  let lines := split NL (strip output) in
  let data_start_index := find_data_start lines 0%Z in
  if (data_start_index =? -1)%Z then packages
  else fold_left process_line (drop (Z.to_nat data_start_index) lines) packages.

(** ** The console, the external tool and exceptions *)

(** The exceptions the program can meet.  [ValueError], [FileNotFoundError]
    and [OtherException] are instances of [Exception]; [KeyboardInterrupt]
    is not.  The message is what [str(e)] gives. *)
Inductive exn :=
| ValueError (msg : str)
| FileNotFoundError
| OtherException (msg : str)
| KeyboardInterrupt.

(** What [subprocess.run] returns. *)
Record completed_process := CompletedProcess {
  returncode : Z;
  stdout : str;
  stderr : str
}.

Inductive outcome :=
| Completed (p : completed_process)
| Raised (e : exn).

(** What the program does to its environment, in order. *)
Inductive event :=
| Print (text : str)
| Input (prompt : str)
| Run (argv : list str) (capture_output : bool).

(** The environment of one run: the platform name, the lines the user will
    type (when they run out, [input] meets the end of the file), what the
    k-th call of [subprocess.run] does with its arguments, and the events so
    far, oldest first. *)
Record world := World {
  platform_system : str;
  stdin : list str;
  external_tool : nat -> list str -> outcome;
  events : list event
}.

Definition is_run (e : event) : bool :=
  match e with
  | Run _ _ => true
  | _ => false
  end.

Definition runs (es : list event) : list event := List.filter is_run es.

Definition add_events (es : list event) (w : world) : world :=
  {| platform_system := platform_system w;
     stdin := stdin w;
     external_tool := external_tool w;
     events := events w ++ es |}.

Definition emit (e : event) (w : world) : world := add_events [e] w.

Definition read_line (w : world) : world :=
  {| platform_system := platform_system w;
     stdin := tail (stdin w);
     external_tool := external_tool w;
     events := events w |}.

(** A computation returns a value or raises, and changes the world. *)
Inductive result (A : Type) :=
| Ok (a : A)
| Raise (e : exn).
Arguments Ok {A} a.
Arguments Raise {A} e.

Definition M (A : Type) : Type := world -> result A * world.

Definition ret {A} (a : A) : M A := fun w => (Ok a, w).

Definition raise {A} (e : exn) : M A := fun w => (Raise e, w).

Definition bind {A B} (m : M A) (k : A -> M B) : M B :=
  fun w =>
    match m w with
    | (Ok a, w') => k a w'
    | (Raise e, w') => (Raise e, w')
    end.

(** [try: m  except ...: handler e]; the handler re-raises what it does not
    catch. *)
Definition try_except {A} (m : M A) (handler : exn -> M A) : M A :=
  fun w =>
    match m w with
    | (Ok a, w') => (Ok a, w')
    | (Raise e, w') => handler e w'
    end.

Declare Scope py_scope.
Delimit Scope py_scope with py.
Notation "'let!' x ':=' m 'in' k" := (bind m (fun x => k))
  (at level 10, x name, m at level 100, k at level 200) : py_scope.
Notation "m '>>' k" := (bind m (fun _ => k))
  (at level 100, k at level 200, right associativity) : py_scope.
Local Open Scope py_scope.

Definition print (text : str) : M unit := fun w => (Ok tt, emit (Print text) w).

(** [input(prompt)]: the next line of the standard input, [EOFError] at its
    end. *)
Definition input (prompt : str) : M str :=
  fun w =>
    match stdin w with
    | line :: _ => (Ok line, read_line (emit (Input prompt) w))
    | [] => (Raise (OtherException (lit "EOF when reading a line")),
             emit (Input prompt) w)
    end.

(** [subprocess.run(argv, capture_output=, check=False, shell=False)] *)
Definition subprocess_run (argv : list str) (capture_output : bool) : M completed_process :=
  fun w =>
    match external_tool w (length (runs (events w))) argv with
    | Completed p => (Ok p, emit (Run argv capture_output) w)
    | Raised e => (Raise e, emit (Run argv capture_output) w)
    end.

Definition platform_system_ : M str := fun w => (Ok (platform_system w), w).

(** ** Strings used by the loop *)

Definition truthy_list {A} (l : list A) : bool :=
  match l with
  | [] => false
  | _ :: _ => true
  end.

Fixpoint str_eqb (a b : str) : bool :=
  match a, b with
  | [], [] => true
  | x :: a', y :: b' => (x =? y) && str_eqb a' b'
  | _, _ => false
  end.

(** [needle in hay] *)
Fixpoint contains (hay needle : str) : bool :=
  startswith hay needle ||
  match hay with
  | [] => false
  | _ :: r => contains r needle
  end.

(** [s.lower()], as far as the comparison with ['c'] needs it: the letters
    [A]..[Z] go to [a]..[z].  No other code point has a lowercase form that
    contains an ASCII letter [c], and none has an empty one, so the other
    code points are left as they are. *)
Definition lower_char (c : char) : char :=
  if (0x41 <=? c) && (c <=? 0x5A) then c + 0x20 else c.

Definition lower (s : str) : str := map lower_char s.

(** [s * n] and [str(n)] *)
Definition str_mul (s : str) (n : nat) : str := concat (repeat s n).

Definition str_of_nat (n : nat) : str :=
  lit (DecimalString.NilEmpty.string_of_uint (Nat.to_uint n)).

(** The format [{i: >2}]: right-aligned in a field of width 2. *)
Definition rjust2 (s : str) : str := repeat 0x20 (2 - length s)%nat ++ s.

(** ** [int(s)] *)

Section Interpreter.

(** [Py_UNICODE_TODECIMAL]: the value of a decimal digit of any script
    (category Nd of the interpreter's Unicode database), and
    [sys.get_int_max_str_digits()], [0] when the interpreter has no limit. *)
Variable to_decimal : char -> option Z.
Variable int_max_str_digits : nat.

(** The digits after the sign: single underscores may stand between two
    digits.  Returns the value and the number of digits. *)
Fixpoint digits_value (acc : Z) (count : nat) (prev_underscore : bool) (s : str)
  : option (Z * nat) :=
  match s with
  | [] => if prev_underscore then None else Some (acc, count)
  | c :: r =>
      if c =? 0x5F then
        if prev_underscore then None else digits_value acc count true r
      else
        match to_decimal c with
        | Some d => digits_value (10 * acc + d)%Z (S count) false r
        | None => None
        end
  end.

(** [int(s)] in base 10, for a string that has no whitespace around it (the
    loop strips its input before the call); [None] stands for
    [ValueError]. *)
Definition py_int (s : str) : option Z :=
  let '(negative, body) :=
    match s with
    | c :: r => if c =? 0x2D then (true, r)
                else if c =? 0x2B then (false, r) else (false, s)
    | [] => (false, s)
    end in
  match body with
  | [] => None
  | c :: _ =>
      if c =? 0x5F then None
      else
        match digits_value 0%Z 0%nat false body with
        | Some (v, count) =>
            if ((0 <? int_max_str_digits) && (int_max_str_digits <? count))%nat
            then None
            else Some (if negative then (- v)%Z else v)
        | None => None
        end
  end.

Definition int_ (s : str) : M Z :=
  match py_int s with
  | Some n => ret n
  | None => raise (ValueError (lit "invalid literal for int() with base 10"))
  end.

(** ** The selection loop of [run_winget_upgrade_manager] *)

Definition accept_flags : list str :=
  [lit "--accept-package-agreements"; lit "--accept-source-agreements"].

Definition upgrade_all_argv : list str :=
  [lit "winget"; lit "upgrade"; lit "--all"] ++ accept_flags.

Definition upgrade_one_argv (pkg_id : str) : list str :=
  [lit "winget"; lit "upgrade"; lit "--id"; pkg_id] ++ accept_flags.

Definition msg_item (i : nat) (pkg : package) : str :=
  lit "[" ++ rjust2 (str_of_nat i) ++ lit "] " ++ name pkg ++ lit " (ID: " ++ id pkg
  ++ lit ") - " ++ version pkg ++ lit " -> " ++ available pkg.

Definition msg_prompt (n : nat) : str :=
  lit "Enter option [0-" ++ str_of_nat n ++ lit "], or 'C' to cancel: ".

Definition msg_canceled : str := NL :: lit "Operation canceled by user. Exiting.".

Definition msg_all_start : str :=
  NL :: lit "--- Starting 'winget upgrade --all'. This may take a while... ---".

Definition msg_all_finished : str := NL :: lit "--- Winget upgrade process finished. ---".

Definition msg_one_start (pkg : package) : str :=
  NL :: lit "--- Starting upgrade for: " ++ name pkg ++ lit " (ID: " ++ id pkg ++ lit ") ---".

Definition msg_one_finished (pkg : package) : str :=
  NL :: lit "--- Upgrade finished for " ++ name pkg ++ lit ". ---".

Definition msg_all_done : str :=
  NL :: lit "All packages in the original list have been upgraded. Exiting.".

Definition msg_invalid_option (n : nat) : str :=
  lit "Invalid option. Please enter a number between 1 and " ++ str_of_nat n
  ++ lit ", 0, or 'C'.".

Definition msg_invalid_input (n : nat) : str :=
  lit "Invalid input. Please enter a number (0 or 1-" ++ str_of_nat n ++ lit ") or 'C'.".

(** [for i, pkg in enumerate(packages_to_upgrade, 1): print(...)] *)
Fixpoint print_items (i : nat) (pkgs : list package) : M unit :=
  match pkgs with
  | [] => ret tt
  | pkg :: rest => print (msg_item i pkg) >> print_items (S i) rest
  end.

Definition show_menu (packages_to_upgrade : list package) : M unit :=
  print (NL :: str_mul (lit "=") 70) >>
  print (lit "AVAILABLE PACKAGE UPGRADES:") >>
  print (str_mul (lit "=") 70) >>
  print_items 1 packages_to_upgrade >>
  print (NL :: str_mul (lit "-") 70) >>
  print (lit "[ 0] UPGRADE ALL listed packages.") >>
  print (lit "[ C] Cancel/Stop and exit the script.") >>
  print (str_mul (lit "-") 70).

(** How one pass of [while True] ends: with [return], or at the end of the
    body, with the list as the pass leaves it. *)
Inductive control :=
| Return
| Continue (packages_to_upgrade : list package).

(** The [try] block of the pass: the numbered choice. *)
Definition select_one (packages_to_upgrade : list package) (user_input : str) : M control :=
  let! selection_index := int_ user_input in
  if ((1 <=? selection_index) && (selection_index <=? Z.of_nat (length packages_to_upgrade)))%Z
  then
    match packages_to_upgrade !! Z.to_nat (selection_index - 1) with
    | Some selected_pkg =>
        let pkg_id := id selected_pkg in
        print (msg_one_start selected_pkg) >>
        subprocess_run (upgrade_one_argv pkg_id) false >>
        print (msg_one_finished selected_pkg) >>
        let packages_to_upgrade := delete (Z.to_nat (selection_index - 1)) packages_to_upgrade in
        if negb (truthy_list packages_to_upgrade) then
          print msg_all_done >> ret Return
        else ret (Continue packages_to_upgrade)
    | None => raise (OtherException (lit "list index out of range"))
    end
  else
    print (msg_invalid_option (length packages_to_upgrade)) >>
    ret (Continue packages_to_upgrade).

Definition loop_body (packages_to_upgrade : list package) : M control :=
  show_menu packages_to_upgrade >>
  let! line := input (msg_prompt (length packages_to_upgrade)) in
  let user_input := strip line in
  if str_eqb (lower user_input) (lit "c") then
    print msg_canceled >> ret Return
  else if str_eqb user_input (lit "0") then
    print msg_all_start >>
    subprocess_run upgrade_all_argv false >>
    print msg_all_finished >>
    ret Return
  else
    try_except (select_one packages_to_upgrade user_input)
      (fun e =>
         match e with
         | ValueError _ =>
             print (msg_invalid_input (length packages_to_upgrade)) >>
             ret (Continue packages_to_upgrade)
         | _ => raise e
         end).

(** [while True]: [fuel] bounds the number of passes; [None] tells that the
    bound was reached before the loop ended. *)
Fixpoint selection_loop (fuel : nat) (packages_to_upgrade : list package) : M (option unit) :=
  match fuel with
  | O => ret None
  | S fuel' =>
      let! c := loop_body packages_to_upgrade in
      match c with
      | Return => ret (Some tt)
      | Continue packages_to_upgrade => selection_loop fuel' packages_to_upgrade
      end
  end.

Definition msg_rule52 : str := str_mul (lit "-") 52.

Definition run_winget_upgrade_manager (fuel : nat) : M (option unit) :=
  let! system := platform_system_ in
  if negb (str_eqb system (lit "Windows")) then
    print (lit "This script is designed to run on Windows and requires the winget utility.") >>
    ret (Some tt)
  else
    print (lit "--- Running 'winget upgrade' to check for available updates... ---" ++ [NL]) >>
    try_except
      (let! result := subprocess_run [lit "winget"; lit "upgrade"] true in
       let packages_to_upgrade := parse_winget_output (stdout result) in
       if negb (truthy_list packages_to_upgrade) then
         print (NL :: msg_rule52) >>
         print (lit "Winget reported: No package upgrades are currently available.") >>
         print msg_rule52 >>
         ret (Some tt)
       else
         (if truthy (stderr result)
             && negb (contains (stderr result) (lit "No package found matching input"))
          then print (NL :: lit "[Warning/Error from winget check]:" ++ NL :: strip (stderr result))
          else ret tt) >>
         selection_loop fuel packages_to_upgrade)
      (fun e =>
         match e with
         | FileNotFoundError =>
             print (NL :: lit "ERROR: 'winget' command not found. Ensure winget is installed and in your system PATH.") >>
             print (lit "Winget is usually included with modern versions of Windows 10/11.") >>
             ret (Some tt)
         | ValueError msg | OtherException msg =>
             print (NL :: lit "An unexpected error occurred: " ++ msg) >>
             ret (Some tt)
         | KeyboardInterrupt => raise e
         end).

End Interpreter.

(** The decimal digits of ASCII. *)
Definition ascii_decimal (c : char) : option Z :=
  if (0x30 <=? c) && (c <=? 0x39) then Some (Z.of_N (c - 0x30)) else None.

(** The interpreter's table agrees with ASCII below 128. *)
Definition ascii_digits (to_decimal : char -> option Z) : Prop :=
  forall c, c < 128 -> to_decimal c = ascii_decimal c.

(** What one line after the separator contributes. *)
Definition row_candidate (line : str) : option package :=
  let line := strip line in
  if negb (truthy line) || startswith line (lit "Found") then None
  else
    let parts := re_split_ws2 line in
    if (5 <=? length parts)%nat then
      let name := strip (nth 0 parts []) in
      let pkg_id := strip (nth 1 parts []) in
      if truthy name && truthy pkg_id then
        Some {| name := name;
                id := pkg_id;
                version := strip (nth 2 parts []);
                available := strip (nth 3 parts []) |}
      else None
    else None.

(** The lines after the first separator line; none when there is no
    separator. *)
Fixpoint data_rows (lines : list str) : list str :=
  match lines with
  | [] => []
  | line :: rest => if is_separator line then rest else data_rows rest
  end.

Definition rows_of (lines : list str) : list package :=
  omap row_candidate (data_rows lines).

(** ['\n'.join(lines)]: the text whose lines are [lines]. *)
Fixpoint join_lines (lines : list str) : str :=
  match lines with
  | [] => []
  | [l] => l
  | l :: ls => l ++ NL :: join_lines ls
  end.

(** The lines of a text [a ++ b] from the lines of [a] and of [b]: the last
    line of [a] and the first line of [b] are one line. *)
Fixpoint glue (la lb : list str) : list str :=
  match la with
  | [] => lb
  | [l] => match lb with
           | m :: ms => (l ++ m) :: ms
           | [] => [l]
           end
  | l :: la' => l :: glue la' lb
  end.

Definition all_space (s : str) : Prop := Forall (fun c => is_space c = true) s.
Definition no_newline (s : str) : Prop := Forall (fun c => c <> NL) s.
Definition not_separator (line : str) : Prop := is_separator line = false.

(** The fields of a row, as the parser sees them, and the candidate built
    from the first four. *)
Definition row_fields (row : str) : list str := re_split_ws2 (strip row).

Definition field (i : nat) (row : str) : str := strip (nth i (row_fields row) []).

Definition candidate_of (row : str) : package :=
  {| name := field 0 row; id := field 1 row;
     version := field 2 row; available := field 3 row |}.

(** A valid data row: not blank, not starting with [Found], at least five
    fields, with a name and an id. *)
Definition valid_row (row : str) : bool :=
  truthy (strip row) && negb (startswith (strip row) (lit "Found"))
  && (5 <=? length (row_fields row))%nat
  && truthy (field 0 row) && truthy (field 1 row).

Definition no_newlineb (s : str) : bool := forallb (fun c => negb (c =? NL)) s.

(** The boundary as the specification words it: the trimmed line begins with
    three or more characters that are [-] or [=]. *)
Definition dash_or_equals (c : char) : bool := (c =? 0x2D) || (c =? 0x3D).

Definition spec_is_boundary (line : str) : bool :=
  match strip line with
  | a :: b :: c :: _ => dash_or_equals a && dash_or_equals b && dash_or_equals c
  | _ => false
  end.

Fixpoint spec_data_rows (lines : list str) : list str :=
  match lines with
  | [] => []
  | line :: rest => if spec_is_boundary line then rest else spec_data_rows rest
  end.

Definition spec_parse (output : str) : list package :=
  omap row_candidate (spec_data_rows (split NL output)).

(** What one pass of the loop prints before it reads the choice. *)
Fixpoint item_lines (i : nat) (pkgs : list package) : list str :=
  match pkgs with
  | [] => []
  | pkg :: rest => msg_item i pkg :: item_lines (S i) rest
  end.

Definition menu_events (pkgs : list package) : list event :=
  map Print
    ([NL :: str_mul (lit "=") 70; lit "AVAILABLE PACKAGE UPGRADES:"; str_mul (lit "=") 70]
     ++ item_lines 1 pkgs
     ++ [NL :: str_mul (lit "-") 70; lit "[ 0] UPGRADE ALL listed packages.";
         lit "[ C] Cancel/Stop and exit the script."; str_mul (lit "-") 70])
  ++ [Input (msg_prompt (length pkgs))].

(** A field with something in it and no whitespace at either end. *)
Fixpoint last_is_space (s : str) : bool :=
  match s with
  | [] => false
  | [c] => is_space c
  | _ :: r => last_is_space r
  end.

Definition clean (f : str) : Prop :=
  f <> [] /\ head_is_space f = false /\ last_is_space f = false.

(** A computation that takes every world to one related to it by [R]; the
    two relations used: the trace only grows, and no line is read. *)
Definition preserves (R : world -> world -> Prop) {A} (m : M A) : Prop :=
  forall w, R w (snd (m w)).

Definition extends_trace (w w' : world) : Prop :=
  exists tail, events w' = events w ++ tail.

Definition same_stdin (w w' : world) : Prop := stdin w' = stdin w.

(** A run on Windows in which the user types [lines] and every call of the
    tool returns a process with exit status [rc]. *)
Definition sample_world (lines : list str) (rc : Z) : world :=
  {| platform_system := lit "Windows";
     stdin := lines;
     external_tool := fun _ _ => Completed (CompletedProcess rc [] []);
     events := [] |}.

(** A run on Windows in which the first call of the tool, the one that
    lists the upgrades, returns [report] on its standard output. *)
Definition report_world (lines : list str) (report : str) : world :=
  {| platform_system := lit "Windows";
     stdin := lines;
     external_tool := fun k _ =>
       match k with
       | O => Completed (CompletedProcess 0 report [])
       | S _ => Completed (CompletedProcess 1 [] [])
       end;
     events := [] |}.

(** Sample rows and reports. *)
Definition header : str := lit "Name  Id  Version  Available  Source".
Definition row_foo : str := lit "Foo Bar  FooBar.Id  1.0  2.0  winget".
Definition row_baz : str := lit "Baz  Baz.Id  1.1  2.1  winget".
Definition row_qux : str := lit "Qux  Qux.Id  3  4  winget".
Definition pkg_foo : package := Package (lit "Foo Bar") (lit "FooBar.Id") (lit "1.0") (lit "2.0").
Definition pkg_baz : package := Package (lit "Baz") (lit "Baz.Id") (lit "1.1") (lit "2.1").
Definition pkg_qux : package := Package (lit "Qux") (lit "Qux.Id") (lit "3") (lit "4").

(** A report whose only rule is made of three equals signs, and a line that
    begins with dashes and has five columns. *)
Definition three_equals_report : str := join_lines [lit "==="; row_foo].
Definition dashed_row : str := lit "---  a  b  c  d".

(** [sep.join(fields)] *)
Fixpoint join (sep : str) (fields : list str) : str :=
  match fields with
  | [] => []
  | [f] => f
  | f :: fs => f ++ sep ++ join sep fs
  end.

(** No two whitespace characters next to each other. *)
Fixpoint single_spaced (s : str) : bool :=
  match s with
  | [] => true
  | c :: r => negb (is_space c && head_is_space r) && single_spaced r
  end.

(** A column as the report prints it: something in it, no whitespace at
    either end, no run of whitespace inside. *)
Definition column (f : str) : Prop := clean f /\ single_spaced f = true.

Definition columnb (f : str) : bool :=
  truthy f && negb (head_is_space f) && negb (last_is_space f) && single_spaced f.

(** The first call of a run, which lists the upgrades. *)
Definition list_upgrades_argv : list str := [lit "winget"; lit "upgrade"].

Definition msg_running : str :=
  lit "--- Running 'winget upgrade' to check for available updates... ---" ++ [NL].

(** Runs in which every call of the tool raises [e]; in which the first
    call returns [report] and the later ones raise [e]; and a run on another
    platform. *)
Definition raising_world (lines : list str) (e : exn) : world :=
  {| platform_system := lit "Windows";
     stdin := lines;
     external_tool := fun _ _ => Raised e;
     events := [] |}.

Definition report_then_raising_world (lines : list str) (report : str) (e : exn) : world :=
  {| platform_system := lit "Windows";
     stdin := lines;
     external_tool := fun k _ =>
       match k with
       | O => Completed (CompletedProcess 0 report [])
       | S _ => Raised e
       end;
     events := [] |}.

Definition linux_world (lines : list str) : world :=
  {| platform_system := lit "Linux";
     stdin := lines;
     external_tool := fun _ _ => Completed (CompletedProcess 0 [] []);
     events := [] |}.

Definition msg_not_windows : str :=
  lit "This script is designed to run on Windows and requires the winget utility.".

Definition msg_no_upgrades : str :=
  lit "Winget reported: No package upgrades are currently available.".

Definition msg_unexpected (msg : str) : str :=
  NL :: lit "An unexpected error occurred: " ++ msg.

Definition msg_not_found : list str :=
  [NL :: lit "ERROR: 'winget' command not found. Ensure winget is installed and in your system PATH.";
   lit "Winget is usually included with modern versions of Windows 10/11."].

(** The warning both programs print for the error output of the listing
    call: when there is some and it does not hold the words
    [No package found matching input]. *)
Definition stderr_warning (result : completed_process) : list event :=
  if truthy (stderr result)
     && negb (contains (stderr result) (lit "No package found matching input"))
  then [Print (NL :: lit "[Warning/Error from winget check]:" ++ NL :: strip (stderr result))]
  else [].

(** ** [src/Windows/WingetBasic.py] *)

Module WingetBasic.

Definition msg_question : list str :=
  [NL :: str_mul (lit "=") 70;
   lit "Do you want to proceed with installing ALL the listed upgrades?";
   lit "This will execute 'winget upgrade --all'.";
   str_mul (lit "=") 70].

Definition msg_prompt : str :=
  lit "Enter yes or y to proceed with the upgrade, or no or n to exit: ".

Definition msg_canceled : str :=
  NL :: lit "Operation canceled by user. No packages were upgraded.".

Definition msg_invalid : str := lit "Invalid input. Please enter 'yes' or 'no'.".

(** [x in [a, b]] on strings *)
Definition str_in (x : str) (l : list str) : bool := existsb (str_eqb x) l.

(** One pass of the confirmation loop; [true] when it returns.  [lower] is
    exact here as well: no code point outside [A]..[Z] has a letter of
    [yes] or [no] in its lowercase form. *)
Definition confirm_pass : M bool :=
  let! line := input msg_prompt in
  let user_input := lower (strip line) in
  if str_in user_input [lit "yes"; lit "y"] then
    print msg_all_start >>
    subprocess_run upgrade_all_argv false >>
    print msg_all_finished >>
    ret true
  else if str_in user_input [lit "no"; lit "n"] then
    print msg_canceled >> ret true
  else
    print msg_invalid >> ret false.

(** [while True]: [fuel] bounds the number of passes, [None] tells that the
    bound was reached. *)
Fixpoint confirm_loop (fuel : nat) : M (option unit) :=
  match fuel with
  | O => ret None
  | S fuel' =>
      let! done := confirm_pass in
      if done then ret (Some tt) else confirm_loop fuel'
  end.

Definition run_winget_upgrade_manager (fuel : nat) : M (option unit) :=
  let! system := platform_system_ in
  if negb (str_eqb system (lit "Windows")) then
    print msg_not_windows >> ret (Some tt)
  else
    print msg_running >>
    try_except
      (let! result := subprocess_run list_upgrades_argv true in
       (if truthy (stdout result) then print (strip (stdout result)) else ret tt) >>
       if contains (stdout result) (lit "No upgrades available") then
         print (NL :: msg_rule52) >>
         print msg_no_upgrades >>
         print msg_rule52 >>
         ret (Some tt)
       else
         (if truthy (stderr result)
             && negb (contains (stderr result) (lit "No package found matching input"))
          then print (NL :: lit "[Warning/Error from winget check]:" ++ NL :: strip (stderr result))
          else ret tt) >>
         print (NL :: str_mul (lit "=") 70) >>
         print (lit "Do you want to proceed with installing ALL the listed upgrades?") >>
         print (lit "This will execute 'winget upgrade --all'.") >>
         print (str_mul (lit "=") 70) >>
         confirm_loop fuel)
      (fun e =>
         match e with
         | FileNotFoundError =>
             print (NL :: lit "ERROR: 'winget' command not found. Ensure winget is installed and in your system PATH.") >>
             print (lit "Winget is usually included with modern versions of Windows 10/11.") >>
             ret (Some tt)
         | ValueError msg | OtherException msg =>
             print (NL :: lit "An unexpected error occurred: " ++ msg) >>
             ret (Some tt)
         | KeyboardInterrupt => raise e
         end).

(** An answer the loop does not know, and the events of the passes that read
    such answers. *)
Definition unknown_answer (line : str) : bool :=
  negb (str_in (lower (strip line)) [lit "yes"; lit "y"; lit "no"; lit "n"]).

Definition rejected_events (lines : list str) : list event :=
  flat_map (fun _ => [Input msg_prompt; Print msg_invalid]) lines.

End WingetBasic.

(** The world after the lines up to [lines_left] were read and the events
    [es] added. *)
Definition consumed (lines_left : list str) (es : list event) (w : world) : world :=
  {| platform_system := platform_system w;
     stdin := lines_left;
     external_tool := external_tool w;
     events := events w ++ es |}.

(** What a pass of the confirmation loop of [WingetBasic] can do after it
    has read a line. *)
Inductive confirm_outcome : result bool -> list event -> Prop :=
| confirm_yes :
    confirm_outcome (Ok true)
      [Print msg_all_start; Run upgrade_all_argv false; Print msg_all_finished]
| confirm_yes_raised e :
    confirm_outcome (Raise e) [Print msg_all_start; Run upgrade_all_argv false]
| confirm_no :
    confirm_outcome (Ok true) [Print WingetBasic.msg_canceled]
| confirm_unknown :
    confirm_outcome (Ok false) [Print WingetBasic.msg_invalid].

(** The calls the selection loop may make on a list of candidates: the
    upgrade of everything, or the upgrade of one candidate of the list. *)
Definition allowed_call (packages : list package) (e : event) : Prop :=
  e = Run [lit "winget"; lit "upgrade"; lit "--all";
           lit "--accept-package-agreements"; lit "--accept-source-agreements"] false
  \/ exists p, In p packages
       /\ e = Run [lit "winget"; lit "upgrade"; lit "--id"; id p;
                   lit "--accept-package-agreements"; lit "--accept-source-agreements"] false.

(** What one pass of the selection loop can do once it has listed the
    candidates and read a line: how it ends, and the events it adds. *)
Inductive pass_outcome (packages : list package) : result control -> list event -> Prop :=
| pass_cancel :
    pass_outcome packages (Ok Return) [Print msg_canceled]
| pass_upgrade_all :
    pass_outcome packages (Ok Return)
      [Print msg_all_start; Run upgrade_all_argv false; Print msg_all_finished]
| pass_upgrade_all_raised e :
    pass_outcome packages (Raise e)
      [Print msg_all_start; Run upgrade_all_argv false]
| pass_invalid_input :
    pass_outcome packages (Ok (Continue packages))
      [Print (msg_invalid_input (length packages))]
| pass_invalid_option :
    pass_outcome packages (Ok (Continue packages))
      [Print (msg_invalid_option (length packages))]
| pass_upgrade_one i p :
    packages !! i = Some p -> delete i packages <> [] ->
    pass_outcome packages (Ok (Continue (delete i packages)))
      [Print (msg_one_start p); Run (upgrade_one_argv (id p)) false;
       Print (msg_one_finished p)]
| pass_upgrade_last i p :
    packages !! i = Some p -> delete i packages = [] ->
    pass_outcome packages (Ok Return)
      [Print (msg_one_start p); Run (upgrade_one_argv (id p)) false;
       Print (msg_one_finished p); Print msg_all_done]
| pass_upgrade_one_value_error i p :
    packages !! i = Some p ->
    pass_outcome packages (Ok (Continue packages))
      [Print (msg_one_start p); Run (upgrade_one_argv (id p)) false;
       Print (msg_invalid_input (length packages))]
| pass_upgrade_one_raised i p e :
    packages !! i = Some p -> (forall msg, e <> ValueError msg) ->
    pass_outcome packages (Raise e)
      [Print (msg_one_start p); Run (upgrade_one_argv (id p)) false].

(** The first word of a line: its characters up to the first whitespace. *)
Fixpoint first_word (s : str) : str :=
  match s with
  | [] => []
  | c :: r => if is_space c then [] else c :: first_word r
  end.

(** A valid data row as the specification words it: not blank, not
    beginning with the word [Found], at least five fields, with a name and
    an id.  A row that begins with a longer word, such as [Foundation], does
    not begin with the word [Found]. *)
Definition spec_valid_row (row : str) : bool :=
  truthy (strip row) && negb (str_eqb (first_word (strip row)) (lit "Found"))
  && (5 <=? length (row_fields row))%nat
  && truthy (field 0 row) && truthy (field 1 row).

Definition foundation_row : str := lit "Foundation  Found.Id  1  2  winget".

(** ** Strings: stripping and splitting *)

Lemma lstrip_all_space w : all_space w -> lstrip w = [].
Proof.
  induction 1 as [|c w Hc _ IH]; simpl; [reflexivity|].
  rewrite Hc. exact IH.
Qed.

Lemma lstrip_space_app w s : all_space w -> lstrip (w ++ s) = lstrip s.
Proof.
  induction 1 as [|c w Hc _ IH]; simpl; [reflexivity|].
  rewrite Hc. exact IH.
Qed.

Lemma lstrip_decompose s : exists w, all_space w /\ s = w ++ lstrip s.
Proof.
  induction s as [|c s [w [Hw Hs]]]; simpl.
  - exists []. split; [constructor | reflexivity].
  - destruct (is_space c) eqn:Hc.
    + exists (c :: w). split; [constructor; assumption|].
      simpl. f_equal. exact Hs.
    + exists []. split; [constructor | reflexivity].
Qed.

Lemma lstrip_app_space s w :
  all_space w -> lstrip (s ++ w) = [] /\ lstrip s = [] \/ lstrip (s ++ w) = lstrip s ++ w.
Proof.
  intros Hw. induction s as [|c s IH]; simpl.
  - left. split; [apply lstrip_all_space; assumption | reflexivity].
  - destruct (is_space c); [exact IH | right; reflexivity].
Qed.

Lemma all_space_rev w : all_space w -> all_space (rev w).
Proof. unfold all_space. intros H. apply Forall_rev. exact H. Qed.

Lemma rstrip_app_space s w : all_space w -> rstrip (s ++ w) = rstrip s.
Proof.
  intros Hw. unfold rstrip. rewrite rev_app_distr.
  rewrite lstrip_space_app by (apply all_space_rev; assumption).
  reflexivity.
Qed.

Lemma rstrip_decompose s : exists w, all_space w /\ s = rstrip s ++ w.
Proof.
  destruct (lstrip_decompose (rev s)) as [w [Hw Hs]].
  exists (rev w). split; [apply all_space_rev; assumption|].
  unfold rstrip. rewrite <- rev_app_distr, <- Hs, rev_involutive. reflexivity.
Qed.

Lemma strip_space_app w s : all_space w -> strip (w ++ s) = strip s.
Proof. intros Hw. unfold strip. rewrite lstrip_space_app; auto. Qed.

Lemma strip_app_space s w : all_space w -> strip (s ++ w) = strip s.
Proof.
  intros Hw. unfold strip.
  destruct (lstrip_app_space s w Hw) as [[-> ->] | ->]; [reflexivity|].
  apply rstrip_app_space; assumption.
Qed.

Lemma strip_all_space w : all_space w -> strip w = [].
Proof. intros Hw. unfold strip. rewrite lstrip_all_space; auto. Qed.

(** A text is its stripped content between two runs of whitespace. *)
Lemma strip_decompose s :
  exists w1 w2, all_space w1 /\ all_space w2 /\ s = w1 ++ strip s ++ w2.
Proof.
  destruct (lstrip_decompose s) as [w1 [H1 Hs]].
  destruct (rstrip_decompose (lstrip s)) as [w2 [H2 Hl]].
  exists w1, w2. repeat split; auto.
  unfold strip. rewrite <- Hl. exact Hs.
Qed.

Lemma split_not_nil sep s : split sep s <> [].
Proof.
  destruct s as [|c r]; simpl; [discriminate|].
  destruct (c =? sep); [discriminate|].
  destruct (split sep r); discriminate.
Qed.

Lemma glue_cons_head c la lb :
  la <> [] -> glue (cons_head c la) lb = cons_head c (glue la lb).
Proof.
  destruct la as [|l [|l' la]]; intros Hne; [congruence| |reflexivity].
  simpl. destruct lb; reflexivity.
Qed.

Lemma glue_not_nil la lb : la <> [] -> glue la lb <> [].
Proof.
  destruct la as [|l [|l' la]]; intros Hne; [congruence| |discriminate].
  simpl. destruct lb; discriminate.
Qed.

Lemma split_app sep a b : split sep (a ++ b) = glue (split sep a) (split sep b).
Proof.
  induction a as [|c a IH]; simpl.
  - destruct (split sep b) eqn:E; [|reflexivity].
    exfalso. eapply split_not_nil; eassumption.
  - destruct (c =? sep).
    + rewrite IH. destruct (split sep a) eqn:E; [|reflexivity].
      exfalso. eapply split_not_nil; eassumption.
    + rewrite IH. symmetry. apply glue_cons_head, split_not_nil.
Qed.

Lemma split_all_space sep w : all_space w -> Forall all_space (split sep w).
Proof.
  induction 1 as [|c w Hc Hw IH]; simpl.
  - repeat constructor.
  - destruct (c =? sep).
    + constructor; [constructor | exact IH].
    + destruct (split sep w) as [|l ls]; simpl.
      * repeat constructor. exact Hc.
      * inversion IH; subst. constructor; [constructor; assumption | assumption].
Qed.

Lemma split_no_newline l : no_newline l -> split NL l = [l].
Proof.
  induction 1 as [|c l Hc _ IH]; simpl; [reflexivity|].
  apply N.eqb_neq in Hc. rewrite Hc, IH. reflexivity.
Qed.

Lemma split_line_then l s :
  no_newline l -> split NL (l ++ NL :: s) = l :: split NL s.
Proof.
  induction 1 as [|c l Hc _ IH]; simpl; [reflexivity|].
  apply N.eqb_neq in Hc. rewrite Hc, IH. reflexivity.
Qed.

Lemma split_join lines :
  lines <> [] -> Forall no_newline lines -> split NL (join_lines lines) = lines.
Proof.
  intros Hne Hall. induction Hall as [|l ls Hl Hls IH]; [congruence|].
  destruct ls as [|l' ls'].
  - apply split_no_newline. exact Hl.
  - change (join_lines (l :: l' :: ls')) with (l ++ NL :: join_lines (l' :: ls')).
    rewrite split_line_then by exact Hl.
    rewrite IH by discriminate. reflexivity.
Qed.

(** ** The parser as a function of the lines of the report *)

Lemma process_line_candidate packages line :
  process_line packages line = packages ++ option_list (row_candidate line).
Proof.
  unfold process_line, row_candidate; cbv zeta.
  destruct (negb (truthy (strip line)) || startswith (strip line) (lit "Found"));
    [simpl; rewrite app_nil_r; reflexivity|].
  destruct (5 <=? length (re_split_ws2 (strip line)))%nat;
    [|simpl; rewrite app_nil_r; reflexivity].
  destruct (truthy _ && truthy _); simpl; [reflexivity|].
  rewrite app_nil_r; reflexivity.
Qed.

Lemma fold_process_line rows : forall packages,
  fold_left process_line rows packages = packages ++ omap row_candidate rows.
Proof.
  induction rows as [|r rows IH]; intros packages; simpl.
  - rewrite app_nil_r. reflexivity.
  - rewrite IH, process_line_candidate, <- app_assoc. f_equal.
    destruct (row_candidate r); reflexivity.
Qed.

Lemma find_data_start_none lines : forall i,
  Forall not_separator lines -> find_data_start lines i = (-1)%Z.
Proof.
  induction lines as [|l lines IH]; intros i Hall; simpl; [reflexivity|].
  inversion Hall as [|? ? Hl Hrest]; subst.
  rewrite Hl. apply IH. exact Hrest.
Qed.

Lemma find_data_start_first pre sep post : forall i,
  Forall not_separator pre -> is_separator sep = true ->
  find_data_start (pre ++ sep :: post) i = (i + Z.of_nat (length pre) + 1)%Z.
Proof.
  induction pre as [|l pre IH]; intros i Hpre Hsep; simpl.
  - rewrite Hsep. lia.
  - inversion Hpre as [|? ? Hl Hrest]; subst.
    rewrite Hl, IH by assumption. lia.
Qed.

Lemma data_rows_cons l ls :
  data_rows (l :: ls) = if is_separator l then ls else data_rows ls.
Proof. reflexivity. Qed.

Lemma data_rows_none lines : Forall not_separator lines -> data_rows lines = [].
Proof.
  induction 1 as [|l lines Hl _ IH]; simpl; [reflexivity|].
  rewrite Hl. exact IH.
Qed.

Lemma data_rows_first pre sep post :
  Forall not_separator pre -> is_separator sep = true ->
  data_rows (pre ++ sep :: post) = post.
Proof.
  induction 1 as [|l pre Hl _ IH]; intros Hsep; simpl.
  - rewrite Hsep. reflexivity.
  - rewrite Hl. apply IH. exact Hsep.
Qed.

Lemma separator_cases lines :
  Forall not_separator lines \/
  exists pre sep post,
    lines = pre ++ sep :: post /\ Forall not_separator pre /\ is_separator sep = true.
Proof.
  induction lines as [|l lines IH].
  - left. constructor.
  - destruct (is_separator l) eqn:Hl.
    + right. exists [], l, lines. repeat split; [constructor | exact Hl].
    + destruct IH as [Hnone | (pre & sep & post & -> & Hpre & Hsep)].
      * left. constructor; assumption.
      * right. exists (l :: pre), sep, post.
        repeat split; [constructor; assumption | exact Hsep].
Qed.

(** The two loops of the parser, on the lines they run over. *)
Lemma parse_lines lines :
  (if (find_data_start lines 0 =? -1)%Z then []
   else fold_left process_line (drop (Z.to_nat (find_data_start lines 0)) lines) [])
  = rows_of lines.
Proof.
  unfold rows_of.
  destruct (separator_cases lines) as [Hnone | (pre & sep & post & -> & Hpre & Hsep)].
  - rewrite find_data_start_none, data_rows_none by assumption. reflexivity.
  - rewrite find_data_start_first, data_rows_first by assumption.
    replace (0 + Z.of_nat (length pre) + 1 =? -1)%Z with false
      by (symmetry; apply Z.eqb_neq; lia).
    replace (Z.to_nat (0 + Z.of_nat (length pre) + 1)) with (length pre + 1)%nat by lia.
    change (pre ++ sep :: post) with (pre ++ [sep] ++ post).
    rewrite app_assoc, drop_app_length' by (rewrite length_app; reflexivity).
    rewrite fold_process_line. reflexivity.
Qed.

Lemma is_separator_strip a b : strip a = strip b -> is_separator a = is_separator b.
Proof. unfold is_separator. intros ->. reflexivity. Qed.

Lemma row_candidate_strip a b : strip a = strip b -> row_candidate a = row_candidate b.
Proof. unfold row_candidate. intros ->. reflexivity. Qed.

Lemma blank_not_separator l : all_space l -> is_separator l = false.
Proof. intros H. unfold is_separator. rewrite strip_all_space by exact H. reflexivity. Qed.

Lemma blank_no_candidate l : all_space l -> row_candidate l = None.
Proof. intros H. unfold row_candidate. rewrite strip_all_space by exact H. reflexivity. Qed.

Lemma blank_lines_no_candidate ls : Forall all_space ls -> omap row_candidate ls = [].
Proof.
  induction 1 as [|l ls Hl _ IH]; [reflexivity|].
  cbn. rewrite blank_no_candidate by exact Hl. exact IH.
Qed.

Lemma blank_lines_no_rows ls : Forall all_space ls -> data_rows ls = [].
Proof.
  induction 1 as [|l ls Hl _ IH]; simpl; [reflexivity|].
  rewrite blank_not_separator by exact Hl. exact IH.
Qed.

(** Whitespace appended to a text adds no candidate... *)
Lemma candidates_glue_r la lb :
  la <> [] -> Forall all_space lb ->
  omap row_candidate (glue la lb) = omap row_candidate la.
Proof.
  intros Hne Hb. induction la as [|l la IH]; [congruence|].
  destruct la as [|l' la'].
  - destruct Hb as [|m ms Hm Hms]; [reflexivity|].
    cbn. rewrite (row_candidate_strip (l ++ m) l) by (apply strip_app_space; exact Hm).
    rewrite blank_lines_no_candidate by exact Hms. reflexivity.
  - change (glue (l :: l' :: la') lb) with (l :: glue (l' :: la') lb).
    cbn. cbn in IH. rewrite IH by discriminate. reflexivity.
Qed.

Lemma rows_glue_r la lb :
  la <> [] -> Forall all_space lb -> rows_of (glue la lb) = rows_of la.
Proof.
  intros Hne Hb. unfold rows_of. induction la as [|l la IH]; [congruence|].
  destruct la as [|l' la'].
  - destruct Hb as [|m ms Hm Hms]; [reflexivity|].
    simpl. rewrite (is_separator_strip (l ++ m) l) by (apply strip_app_space; exact Hm).
    destruct (is_separator l).
    + apply blank_lines_no_candidate. exact Hms.
    + rewrite blank_lines_no_rows by exact Hms. reflexivity.
  - change (glue (l :: l' :: la') lb) with (l :: glue (l' :: la') lb).
    rewrite !data_rows_cons. destruct (is_separator l).
    + apply candidates_glue_r; [discriminate | exact Hb].
    + apply IH. discriminate.
Qed.

(** ... and so does whitespace put in front of it. *)
Lemma rows_glue_l la lb :
  Forall all_space la -> lb <> [] -> rows_of (glue la lb) = rows_of lb.
Proof.
  intros Ha Hne. unfold rows_of. induction Ha as [|w la Hw Hla IH]; [reflexivity|].
  destruct la as [|w' la'].
  - destruct lb as [|m ms]; [congruence|].
    simpl. rewrite (is_separator_strip (w ++ m) m) by (apply strip_space_app; exact Hw).
    reflexivity.
  - change (glue (w :: w' :: la') lb) with (w :: glue (w' :: la') lb).
    rewrite data_rows_cons, blank_not_separator by exact Hw. exact IH.
Qed.

(** Stripping the whole report first changes nothing: the lines it removes
    or shortens are blank or keep their trimmed content. *)
Lemma rows_of_strip s : rows_of (split NL (strip s)) = rows_of (split NL s).
Proof.
  destruct (strip_decompose s) as (w1 & w2 & H1 & H2 & Hs).
  remember (strip s) as t eqn:Ht. clear Ht. subst s.
  rewrite !split_app.
  rewrite rows_glue_l;
    [| apply split_all_space; exact H1 | apply glue_not_nil, split_not_nil ].
  rewrite rows_glue_r; [reflexivity | apply split_not_nil | apply split_all_space; exact H2].
Qed.

Lemma parse_rows_of output : parse_winget_output output = rows_of (split NL output).
Proof.
  unfold parse_winget_output; cbv zeta.
  rewrite parse_lines. apply rows_of_strip.
Qed.

Lemma parse_join lines :
  lines <> [] -> Forall no_newline lines ->
  parse_winget_output (join_lines lines) = rows_of lines.
Proof. intros Hne Hnl. rewrite parse_rows_of, split_join by assumption. reflexivity. Qed.
(** ** Rows *)

Lemma row_candidate_valid row :
  row_candidate row = if valid_row row then Some (candidate_of row) else None.
Proof.
  unfold row_candidate, valid_row, candidate_of, field, row_fields; cbv zeta.
  destruct (truthy (strip row)); cbn [negb orb andb]; [|reflexivity].
  destruct (startswith (strip row) (lit "Found")); cbn [negb orb andb]; [reflexivity|].
  destruct (5 <=? length (re_split_ws2 (strip row)))%nat; cbn [negb orb andb];
    reflexivity.
Qed.

Lemma valid_rows_candidates rows :
  Forall (fun r => valid_row r = true) rows ->
  omap row_candidate rows = map candidate_of rows.
Proof.
  induction 1 as [|r rows Hr _ IH]; [reflexivity|].
  cbn. rewrite row_candidate_valid, Hr, IH. reflexivity.
Qed.

Lemma few_fields_no_candidate row :
  (length (row_fields row) < 5)%nat -> row_candidate row = None.
Proof.
  intros H. rewrite row_candidate_valid. unfold valid_row.
  replace (5 <=? length (row_fields row))%nat with false
    by (symmetry; apply Nat.leb_gt; exact H).
  rewrite !andb_false_r. reflexivity.
Qed.

Lemma empty_field_no_candidate row :
  field 0 row = [] \/ field 1 row = [] -> row_candidate row = None.
Proof.
  intros H. rewrite row_candidate_valid. unfold valid_row.
  destruct H as [-> | ->]; simpl; rewrite ?andb_false_r; reflexivity.
Qed.

Lemma truthy_nonempty s : truthy s = true -> s <> [].
Proof. destruct s; [discriminate | intros _; discriminate]. Qed.

Lemma candidate_named row p :
  row_candidate row = Some p -> name p <> [] /\ id p <> [].
Proof.
  rewrite row_candidate_valid. destruct (valid_row row) eqn:Hv; [|discriminate].
  intros [= <-]. unfold valid_row in Hv.
  apply andb_prop in Hv as [Hv Hid]. apply andb_prop in Hv as [_ Hname].
  split; apply truthy_nonempty; assumption.
Qed.

(** A row that contributes nothing can be taken out of the report. *)
Lemma omap_without rows1 row rows2 :
  row_candidate row = None ->
  omap row_candidate (rows1 ++ row :: rows2) = omap row_candidate (rows1 ++ rows2).
Proof. intros H. rewrite !omap_app. cbn. rewrite H. reflexivity. Qed.

Lemma no_space_one_field s :
  Forall (fun c => is_space c = false) s -> re_split_ws2 s = [s].
Proof.
  unfold re_split_ws2. induction 1 as [|c s Hc _ IH]; simpl; [reflexivity|].
  rewrite Hc, IH. reflexivity.
Qed.

Lemma dash_or_equals_not_space c : dash_or_equals c = true -> is_space c = false.
Proof.
  unfold dash_or_equals. intros H. apply orb_prop in H as [H | H];
    apply N.eqb_eq in H; subst c; reflexivity.
Qed.

Lemma no_newline_check s : no_newlineb s = true -> no_newline s.
Proof.
  unfold no_newlineb, no_newline. induction s as [|c s IH]; simpl; intros H.
  - constructor.
  - apply andb_prop in H as [Hc Hs]. constructor; [|apply IH; exact Hs].
    apply negb_true_iff, N.eqb_neq in Hc. exact Hc.
Qed.

Lemma Forall_check {A} (f : A -> bool) (l : list A) :
  forallb f l = true -> Forall (fun x => f x = true) l.
Proof.
  induction l as [|x l IH]; simpl; intros H; [constructor|].
  apply andb_prop in H as [Hx Hl]. constructor; [exact Hx | apply IH; exact Hl].
Qed.

Lemma not_separator_check ls :
  forallb (fun l => negb (is_separator l)) ls = true -> Forall not_separator ls.
Proof.
  intros H. apply Forall_check in H. eapply Forall_impl; [exact H|].
  intros l Hl. apply negb_true_iff in Hl. exact Hl.
Qed.

(** The candidates are those of the lines after the first separator. *)
Lemma rows_after_first_separator output pre sep post :
  split NL output = pre ++ sep :: post ->
  Forall not_separator pre -> is_separator sep = true ->
  parse_winget_output output = omap row_candidate post
  /\ rows_of (split NL output) = omap row_candidate post.
Proof.
  intros Hlines Hpre Hsep. rewrite parse_rows_of. unfold rows_of.
  rewrite Hlines, data_rows_first by assumption. split; reflexivity.
Qed.

(** ** The fields of a trimmed line *)

Lemma lstrip_head s : head_is_space (lstrip s) = false.
Proof.
  induction s as [|c s IH]; simpl; [reflexivity|].
  destruct (is_space c) eqn:Hc; [exact IH | simpl; exact Hc].
Qed.

Lemma lstrip_id s : head_is_space s = false -> lstrip s = s.
Proof. destruct s as [|c s]; simpl; [reflexivity|]. intros ->. reflexivity. Qed.

Lemma head_is_space_snoc s c :
  head_is_space (s ++ [c]) = match s with [] => is_space c | _ => head_is_space s end.
Proof. destruct s; reflexivity. Qed.

Lemma head_is_space_rev s : head_is_space (rev s) = last_is_space s.
Proof.
  induction s as [|c s IH]; [reflexivity|].
  destruct s as [|d s]; [reflexivity|].
  change (last_is_space (c :: d :: s)) with (last_is_space (d :: s)).
  rewrite <- IH. change (rev (c :: d :: s)) with (rev (d :: s) ++ [c]).
  rewrite head_is_space_snoc.
  destruct (rev (d :: s)) eqn:E; [|reflexivity].
  simpl in E. destruct (rev s); discriminate.
Qed.

Lemma rstrip_id s : last_is_space s = false -> rstrip s = s.
Proof.
  intros H. unfold rstrip. rewrite lstrip_id, rev_involutive; [reflexivity|].
  rewrite head_is_space_rev. exact H.
Qed.

Lemma clean_strip f : clean f -> strip f = f.
Proof.
  intros (_ & Hh & Hl). unfold strip. rewrite (lstrip_id f Hh). apply rstrip_id, Hl.
Qed.

Lemma strip_ends s :
  head_is_space (strip s) = false /\ last_is_space (strip s) = false.
Proof.
  unfold strip. split.
  - destruct (rstrip_decompose (lstrip s)) as (w & _ & Hw).
    pose proof (lstrip_head s) as Hh. rewrite Hw in Hh.
    destruct (rstrip (lstrip s)); [reflexivity | exact Hh].
  - rewrite <- head_is_space_rev. unfold rstrip. rewrite rev_involutive.
    apply lstrip_head.
Qed.

Lemma last_is_space_cons c s :
  last_is_space (c :: s) = match s with [] => is_space c | _ => last_is_space s end.
Proof. destruct s; reflexivity. Qed.

(** On a text that does not end with whitespace: after a run every field is
    clean; inside a field the one being read has no whitespace at its end,
    and starts as the text does. *)
Lemma re_split_from_clean s :
  last_is_space s = false ->
  (s <> [] -> Forall clean (re_split_from true s))
  /\ exists f0 rest,
       re_split_from false s = f0 :: rest
       /\ Forall clean rest
       /\ last_is_space f0 = false
       /\ (s <> [] -> head_is_space s = false -> f0 <> [] /\ head_is_space f0 = false).
Proof.
  induction s as [|c r IH]; intros Hlast.
  - split; [congruence|]. exists [], []. repeat split; try constructor; congruence.
  - rewrite last_is_space_cons in Hlast.
    assert (Hr : last_is_space r = false) by (destruct r; [reflexivity | exact Hlast]).
    destruct (IH Hr) as (IHtrue & f0 & rest & Hfalse & Hrest & Hf0 & Hstart).
    assert (Hcons : is_space c = false -> clean (c :: f0)).
    { intros Hc. repeat split; [discriminate | exact Hc |].
      rewrite last_is_space_cons. destruct f0; [exact Hc | exact Hf0]. }
    split.
    + intros _. simpl. destruct (is_space c) eqn:Hc.
      * apply IHtrue. destruct r; [congruence | discriminate].
      * rewrite Hfalse. cbn [cons_head]. constructor; [apply Hcons; reflexivity | exact Hrest].
    + simpl. destruct (is_space c) eqn:Hc.
      * destruct (head_is_space r) eqn:Hhr.
        -- exists [], (re_split_from true r). repeat split; try congruence.
           apply IHtrue. destruct r; discriminate.
        -- rewrite Hfalse. cbn [cons_head]. exists (c :: f0), rest.
           repeat split; try assumption; try congruence.
           rewrite last_is_space_cons.
           destruct r as [|d r']; [congruence|].
           destruct (Hstart ltac:(discriminate) eq_refl) as [Hne _].
           destruct f0; [congruence | exact Hf0].
      * rewrite Hfalse. cbn [cons_head]. exists (c :: f0), rest.
        destruct (Hcons eq_refl) as (Hne & Hh & Hl).
        repeat split; assumption.
Qed.

(** The fields of a trimmed, non-empty line are never empty and have no
    whitespace around them: stripping them changes nothing, and the parser's
    test of the name and of the id never fails once five fields are there. *)
Lemma fields_of_trimmed_line line :
  strip line <> [] -> Forall clean (row_fields line).
Proof.
  intros Hne. unfold row_fields, re_split_ws2.
  destruct (strip_ends line) as [Hh Hl].
  destruct (re_split_from_clean (strip line) Hl)
    as (_ & f0 & rest & -> & Hrest & Hl0 & Hstart).
  destruct (Hstart Hne Hh) as [Hf0 Hfh].
  constructor; [|exact Hrest]. repeat split; assumption.
Qed.

Lemma field_is_stripped i line :
  strip line <> [] -> (i < length (row_fields line))%nat ->
  field i line = nth i (row_fields line) [] /\ field i line <> [].
Proof.
  intros Hne Hi. unfold field.
  pose proof (fields_of_trimmed_line line Hne) as Hall.
  pose proof (proj1 (List.Forall_nth _ _) Hall i [] Hi) as Hclean.
  rewrite (clean_strip _ Hclean). split; [reflexivity | apply Hclean].
Qed.

Lemma nonempty_truthy s : s <> [] -> truthy s = true.
Proof. destruct s; [congruence | reflexivity]. Qed.

Lemma name_id_test_redundant row :
  valid_row row
  = truthy (strip row) && negb (startswith (strip row) (lit "Found"))
    && (5 <=? length (row_fields row))%nat.
Proof.
  unfold valid_row.
  destruct (truthy (strip row)) eqn:Ht; [|reflexivity].
  destruct (startswith (strip row) (lit "Found")); [reflexivity|].
  destruct (5 <=? length (row_fields row))%nat eqn:Hlen; [|reflexivity].
  apply Nat.leb_le in Hlen. apply truthy_nonempty in Ht.
  rewrite (nonempty_truthy _ (proj2 (field_is_stripped 0 row Ht ltac:(lia)))).
  rewrite (nonempty_truthy _ (proj2 (field_is_stripped 1 row Ht ltac:(lia)))).
  reflexivity.
Qed.


(** ** The parser: the claims *)

(** C1 (as amended).  The header/data boundary is the first line whose
    trimmed content begins with ["---"] or ["===="]: a text none of whose
    lines is such a line parses to the empty sequence, and otherwise the
    candidates are exactly what the lines after the first such line give. *)
Theorem first_separator_is_boundary output :
  (Forall not_separator (split NL output) -> parse_winget_output output = [])
  /\ (forall pre sep post,
        split NL output = pre ++ sep :: post ->
        Forall not_separator pre -> is_separator sep = true ->
        parse_winget_output output = omap row_candidate post)
  /\ (forall line,
        is_separator line = true <->
        startswith (strip line) (lit "---") = true
        \/ startswith (strip line) (lit "====") = true).
Proof.
  split; [|split].
  - intros Hnone. rewrite parse_rows_of. unfold rows_of.
    rewrite data_rows_none by exact Hnone. reflexivity.
  - intros pre sep post Hlines Hpre Hsep.
    apply (rows_after_first_separator output pre sep post); assumption.
  - intros line. unfold is_separator, startswith_any. cbn [existsb].
    rewrite orb_false_r. apply orb_true_iff.
Qed.

Lemma first_separator_is_boundary_witness :
  parse_winget_output (lit "No installed package found.") = []
  /\ parse_winget_output (join_lines [header; lit "-----"; row_foo; row_baz])
     = omap row_candidate [row_foo; row_baz].
Proof.
  split.
  - apply (proj1 (first_separator_is_boundary _)).
    apply not_separator_check. vm_compute. reflexivity.
  - apply (proj1 (proj2 (first_separator_is_boundary _)) [header] (lit "-----")).
    + vm_compute. reflexivity.
    + apply not_separator_check. vm_compute. reflexivity.
    + vm_compute. reflexivity.
Defined.

(** C1 as the specification words it fails: a rule of exactly three equals
    signs begins with three [=], so the specification takes it for the
    boundary and the row after it for a candidate; the parser finds no
    separator and returns the empty sequence. *)
Lemma three_equals_is_no_boundary :
  spec_is_boundary (lit "===") = true
  /\ spec_parse three_equals_report = [pkg_foo]
  /\ parse_winget_output three_equals_report = []
  /\ parse_winget_output three_equals_report <> spec_parse three_equals_report.
Proof.
  assert (Hs : spec_parse three_equals_report = [pkg_foo]) by (vm_compute; reflexivity).
  assert (Hp : parse_winget_output three_equals_report = []) by (vm_compute; reflexivity).
  split; [vm_compute; reflexivity|].
  split; [exact Hs|]. split; [exact Hp|].
  rewrite Hs, Hp. discriminate.
Qed.

(** C2 (as amended).  In a report whose lines are some header lines, the
    first separator and then [rows]: when every row is valid (its trimmed
    content is not empty, does not start with the characters [Found], splits
    into five fields or more, and the trimmed fields 0 and 1 are not empty)
    the parser returns one candidate per row, in the order of the rows, built
    from the trimmed fields 0 to 3; a row with fewer than five fields gives
    nothing and can be taken out of the report without changing what the
    other rows give; and whitespace before or after a row changes neither
    whether it is valid nor the candidate it gives. *)
Theorem valid_rows_parsed output pre sep rows :
  split NL output = pre ++ sep :: rows ->
  Forall not_separator pre -> is_separator sep = true ->
  (Forall (fun r => valid_row r = true) rows ->
     parse_winget_output output = map candidate_of rows
     /\ length (parse_winget_output output) = length rows)
  /\ (forall before bad after,
        rows = before ++ bad :: after ->
        (length (row_fields bad) < 5)%nat ->
        parse_winget_output output
          = omap row_candidate before ++ omap row_candidate after
        /\ forall output',
             split NL output' = pre ++ sep :: before ++ after ->
             parse_winget_output output' = parse_winget_output output)
  /\ (forall w1 row w2,
        all_space w1 -> all_space w2 ->
        valid_row (w1 ++ row ++ w2) = valid_row row
        /\ candidate_of (w1 ++ row ++ w2) = candidate_of row).
Proof.
  intros Hlines Hpre Hsep.
  destruct (rows_after_first_separator output pre sep rows Hlines Hpre Hsep) as [Hp _].
  split; [|split].
  - intros Hvalid. rewrite Hp, valid_rows_candidates by exact Hvalid.
    split; [reflexivity | apply length_map].
  - intros before bad after -> Hfew.
    rewrite Hp, omap_without by (apply few_fields_no_candidate; exact Hfew).
    rewrite omap_app. split; [reflexivity|].
    intros output' Hlines'.
    destruct (rows_after_first_separator output' pre sep (before ++ after)
                Hlines' Hpre Hsep) as [-> _].
    apply omap_app.
  - intros w1 row w2 H1 H2.
    assert (Hstrip : strip (w1 ++ row ++ w2) = strip row)
      by (rewrite strip_space_app, strip_app_space by assumption; reflexivity).
    unfold valid_row, candidate_of, field, row_fields. rewrite Hstrip.
    split; reflexivity.
Qed.

Lemma valid_rows_parsed_witness :
  parse_winget_output
    (join_lines [header; lit "-----";
                 lit "   Foo Bar  FooBar.Id  1.0  2.0  winget  "; row_baz])
    = [ {| name := lit "Foo Bar"; id := lit "FooBar.Id";
           version := lit "1.0"; available := lit "2.0" |};
        {| name := lit "Baz"; id := lit "Baz.Id";
           version := lit "1.1"; available := lit "2.1" |} ]
  /\ parse_winget_output (join_lines [header; lit "-----"; row_foo; lit "too  few  fields"; row_baz])
     = parse_winget_output (join_lines [header; lit "-----"; row_foo; row_baz]).
Proof.
  split.
  - apply (proj1 (valid_rows_parsed
                    (join_lines [header; lit "-----";
                                 lit "   Foo Bar  FooBar.Id  1.0  2.0  winget  "; row_baz])
                    [header] (lit "-----")
                    [lit "   Foo Bar  FooBar.Id  1.0  2.0  winget  "; row_baz]
                    eq_refl (not_separator_check [header] eq_refl) eq_refl)).
    apply Forall_check. vm_compute. reflexivity.
  - symmetry.
    apply (proj1 (proj2 (valid_rows_parsed
                    (join_lines [header; lit "-----"; row_foo; lit "too  few  fields"; row_baz])
                    [header] (lit "-----")
                    [row_foo; lit "too  few  fields"; row_baz]
                    eq_refl (not_separator_check [header] eq_refl) eq_refl))
                 [row_foo] (lit "too  few  fields") [row_baz] eq_refl).
    + vm_compute. lia.
    + vm_compute. reflexivity.
Defined.

(** C2 as the specification words it fails: a row that begins with the word
    [Foundation] does not begin with the word [Found], has five fields, a
    name and an id, yet the parser leaves it out, because its first five
    characters are [Found]: of the two rows, both valid in the words of the
    claim, one candidate is returned. *)
Lemma foundation_row_is_dropped :
  Forall (fun r => spec_valid_row r = true) [foundation_row; row_foo]
  /\ row_candidate foundation_row = None
  /\ parse_winget_output (join_lines [lit "-----"; foundation_row; row_foo]) = [pkg_foo]
  /\ length (parse_winget_output (join_lines [lit "-----"; foundation_row; row_foo]))
     <> length [foundation_row; row_foo].
Proof.
  split; [apply Forall_check; vm_compute; reflexivity|].
  split; [vm_compute; reflexivity|].
  assert (Hp : parse_winget_output (join_lines [lit "-----"; foundation_row; row_foo])
               = [pkg_foo]) by (vm_compute; reflexivity).
  split; [exact Hp|]. rewrite Hp. cbn. lia.
Qed.

(** C7.  Every candidate the parser returns has a non-empty name and a
    non-empty id, and a row after the separator whose trimmed name or
    trimmed id is empty (or missing) gives no candidate: the parser returns
    what the other rows give. *)
Theorem candidates_have_name_and_id :
  (forall output p,
     In p (parse_winget_output output) -> name p <> [] /\ id p <> [])
  /\ (forall output pre sep before row after,
        split NL output = pre ++ sep :: before ++ row :: after ->
        Forall not_separator pre -> is_separator sep = true ->
        field 0 row = [] \/ field 1 row = [] ->
        row_candidate row = None
        /\ parse_winget_output output
           = omap row_candidate before ++ omap row_candidate after).
Proof.
  split.
  - intros output p Hin. rewrite parse_rows_of in Hin. unfold rows_of in Hin.
    apply list_elem_of_In, list_elem_of_omap in Hin as (row & _ & Hrow).
    eapply candidate_named. exact Hrow.
  - intros output pre sep before row after Hlines Hpre Hsep Hempty.
    pose proof (empty_field_no_candidate row Hempty) as Hnone.
    split; [exact Hnone|].
    destruct (rows_after_first_separator _ _ _ _ Hlines Hpre Hsep) as [-> _].
    rewrite omap_without by exact Hnone. apply omap_app.
Qed.

Lemma candidates_have_name_and_id_witness :
  (name pkg_foo <> [] /\ id pkg_foo <> [])
  /\ parse_winget_output
       (join_lines [header; lit "-----"; row_foo; lit "NoId"; row_baz])
     = [pkg_foo; pkg_baz].
Proof.
  split.
  - apply (proj1 candidates_have_name_and_id (join_lines [lit "-----"; row_foo]) pkg_foo).
    vm_compute. left. reflexivity.
  - apply (proj2 candidates_have_name_and_id
             (join_lines [header; lit "-----"; row_foo; lit "NoId"; row_baz])
             [header] (lit "-----") [row_foo] (lit "NoId") [row_baz] eq_refl
             (not_separator_check [header] eq_refl) eq_refl).
    right. vm_compute. reflexivity.
Defined.

(** C8.  The report made of the separator line ["-----"] and the row
    ["Foo Bar  FooBar.Id  1.0  2.0  winget"] parses to one candidate, with
    name ["Foo Bar"], id ["FooBar.Id"], current version ["1.0"] and available
    version ["2.0"]. *)
Theorem parse_example_report :
  parse_winget_output
    (lit "-----" ++ NL :: lit "Foo Bar  FooBar.Id  1.0  2.0  winget")
  = [ {| name := lit "Foo Bar"; id := lit "FooBar.Id";
         version := lit "1.0"; available := lit "2.0" |} ].
Proof. vm_compute. reflexivity. Qed.

(** C9.  The parser is a function of the report text alone: parsing the same
    text twice gives equal sequences. *)
Theorem parse_deterministic output1 output2 :
  output1 = output2 -> parse_winget_output output1 = parse_winget_output output2.
Proof. intros ->. reflexivity. Qed.

Lemma parse_deterministic_witness :
  parse_winget_output (join_lines [header; lit "-----"; row_foo])
  = parse_winget_output (header ++ NL :: lit "-----" ++ NL :: row_foo).
Proof. apply parse_deterministic. vm_compute. reflexivity. Defined.

(** C10 (as amended).  Only the first separator line sets the boundary: a
    later line that begins like a separator is an ordinary data row, and the
    rows after it are still parsed.  It gives no candidate when it splits
    into fewer than five fields, which is the case of a line made only of
    [-] and [=]. *)
Theorem later_separator_is_ordinary_row output pre sep mid later post :
  split NL output = pre ++ sep :: mid ++ later :: post ->
  Forall not_separator pre -> is_separator sep = true ->
  is_separator later = true ->
  parse_winget_output output
    = omap row_candidate mid ++ option_list (row_candidate later)
      ++ omap row_candidate post
  /\ ((length (row_fields later) < 5)%nat ->
      parse_winget_output output = omap row_candidate mid ++ omap row_candidate post)
  /\ (forallb dash_or_equals (strip later) = true -> row_fields later = [strip later]).
Proof.
  intros Hlines Hpre Hsep _.
  destruct (rows_after_first_separator _ _ _ _ Hlines Hpre Hsep) as [Hp _].
  split; [|split].
  - rewrite Hp, omap_app. cbn. destruct (row_candidate later); reflexivity.
  - intros Hfew. rewrite Hp, omap_without by (apply few_fields_no_candidate; exact Hfew).
    apply omap_app.
  - intros Hdash. unfold row_fields. apply no_space_one_field.
    apply Forall_check in Hdash. eapply Forall_impl; [exact Hdash|].
    intros c Hc. apply dash_or_equals_not_space. exact Hc.
Qed.

Lemma later_separator_is_ordinary_row_witness :
  parse_winget_output
    (join_lines [header; lit "-----"; row_foo; lit "  ----------"; row_baz])
  = [pkg_foo; pkg_baz].
Proof.
  apply (proj1 (proj2 (later_separator_is_ordinary_row
           (join_lines [header; lit "-----"; row_foo; lit "  ----------"; row_baz])
           [header] (lit "-----") [row_foo] (lit "  ----------") [row_baz]
           eq_refl (not_separator_check [header] eq_refl) eq_refl eq_refl))).
  rewrite (proj2 (proj2 (later_separator_is_ordinary_row
           (join_lines [header; lit "-----"; row_foo; lit "  ----------"; row_baz])
           [header] (lit "-----") [row_foo] (lit "  ----------") [row_baz]
           eq_refl (not_separator_check [header] eq_refl) eq_refl eq_refl)));
    [vm_compute; lia | vm_compute; reflexivity].
Defined.

(** C10 as stated fails: a later line can begin like a separator and still
    split into five fields, and then it gives a candidate. *)
Lemma dashed_row_is_a_candidate :
  is_separator dashed_row = true
  /\ length (re_split_ws2 (strip dashed_row)) = 5%nat
  /\ parse_winget_output (join_lines [lit "-----"; dashed_row])
     = [ {| name := lit "---"; id := lit "a"; version := lit "b"; available := lit "c" |} ].
Proof. repeat split; vm_compute; reflexivity. Qed.

(** ** The console and the tool: how the primitives run *)

Lemma add_events_nil w : add_events [] w = w.
Proof. destruct w. unfold add_events. cbn. rewrite app_nil_r. reflexivity. Qed.

Lemma add_events_app es1 es2 w :
  add_events es2 (add_events es1 w) = add_events (es1 ++ es2) w.
Proof. unfold add_events. cbn. rewrite app_assoc. reflexivity. Qed.

Lemma read_line_add_events es w :
  read_line (add_events es w) = add_events es (read_line w).
Proof. reflexivity. Qed.

Lemma runs_app es1 es2 : runs (es1 ++ es2) = runs es1 ++ runs es2.
Proof. unfold runs. apply List.filter_app. Qed.

Lemma runs_prints texts : runs (map Print texts) = [].
Proof. induction texts as [|t texts IH]; [reflexivity | exact IH]. Qed.

Lemma runs_menu pkgs : runs (menu_events pkgs) = [].
Proof. unfold menu_events. rewrite runs_app, runs_prints. reflexivity. Qed.

Lemma bind_ok {A B} (m : M A) (k : A -> M B) w a w' :
  m w = (Ok a, w') -> bind m k w = k a w'.
Proof. unfold bind. intros ->. reflexivity. Qed.

Lemma bind_raise {A B} (m : M A) (k : A -> M B) w e w' :
  m w = (Raise e, w') -> bind m k w = (Raise e, w').
Proof. unfold bind. intros ->. reflexivity. Qed.

Lemma print_run text w : print text w = (Ok tt, add_events [Print text] w).
Proof. reflexivity. Qed.

Lemma print_run_bind {A} text (k : M A) w :
  bind (print text) (fun _ => k) w = k (add_events [Print text] w).
Proof. reflexivity. Qed.

Lemma print_items_run pkgs : forall i w,
  print_items i pkgs w = (Ok tt, add_events (map Print (item_lines i pkgs)) w).
Proof.
  induction pkgs as [|pkg pkgs IH]; intros i w; simpl.
  - unfold ret. rewrite add_events_nil. reflexivity.
  - erewrite bind_ok by apply print_run.
    rewrite IH, add_events_app. reflexivity.
Qed.

Lemma show_menu_run pkgs w :
  exists texts,
    menu_events pkgs = map Print texts ++ [Input (msg_prompt (length pkgs))]
    /\ show_menu pkgs w = (Ok tt, add_events (map Print texts) w).
Proof.
  eexists. split; [reflexivity|].
  unfold show_menu.
  do 3 (erewrite bind_ok by apply print_run).
  erewrite bind_ok by apply print_items_run.
  do 3 (erewrite bind_ok by apply print_run).
  rewrite print_run, !add_events_app.
  rewrite !map_app. reflexivity.
Qed.

(** A pass begins by listing the candidates and asking for a choice. *)
Lemma listing_run {A} pkgs (k : str -> M A) w line rest :
  stdin w = line :: rest ->
  bind (show_menu pkgs) (fun _ => bind (input (msg_prompt (length pkgs))) k) w
  = k line (read_line (add_events (menu_events pkgs) w)).
Proof.
  intros Hin. destruct (show_menu_run pkgs w) as (texts & -> & Hmenu).
  erewrite bind_ok by exact Hmenu.
  erewrite bind_ok.
  2:{ unfold input. cbn [stdin add_events]. rewrite Hin. reflexivity. }
  unfold emit. rewrite add_events_app. reflexivity.
Qed.

(** Without a line to read, the pass ends with the end-of-file error. *)
Lemma listing_eof {A} pkgs (k : str -> M A) w :
  stdin w = [] ->
  bind (show_menu pkgs) (fun _ => bind (input (msg_prompt (length pkgs))) k) w
  = (Raise (OtherException (lit "EOF when reading a line")),
     add_events (menu_events pkgs) w).
Proof.
  intros Hin. destruct (show_menu_run pkgs w) as (texts & -> & Hmenu).
  erewrite bind_ok by exact Hmenu.
  erewrite bind_raise.
  2:{ unfold input. cbn [stdin add_events]. rewrite Hin. reflexivity. }
  unfold emit. rewrite add_events_app. reflexivity.
Qed.

Lemma subprocess_run_completed argv capture w p :
  external_tool w (length (runs (events w))) argv = Completed p ->
  subprocess_run argv capture w = (Ok p, add_events [Run argv capture] w).
Proof. unfold subprocess_run. intros ->. reflexivity. Qed.

Lemma subprocess_run_raised argv capture w e :
  external_tool w (length (runs (events w))) argv = Raised e ->
  subprocess_run argv capture w = (Raise e, add_events [Run argv capture] w).
Proof. unfold subprocess_run. intros ->. reflexivity. Qed.

Lemma str_eqb_eq a : forall b, str_eqb a b = true <-> a = b.
Proof.
  induction a as [|x a IH]; intros [|y b]; simpl; split; try congruence.
  - intros H. apply andb_prop in H as [Hxy Hab].
    apply N.eqb_eq in Hxy. apply IH in Hab. congruence.
  - intros [= -> ->]. rewrite N.eqb_refl. apply IH. reflexivity.
Qed.

Lemma str_eqb_neq a b : a <> b -> str_eqb a b = false.
Proof.
  intros Hne. destruct (str_eqb a b) eqn:E; [|reflexivity].
  apply str_eqb_eq in E. contradiction.
Qed.

(** Only ["c"] and ["C"] are ["c"] in lower case. *)
Lemma lower_is_c u : lower u = lit "c" <-> u = lit "c" \/ u = lit "C".
Proof.
  change (lit "c") with [99]. change (lit "C") with [67].
  split.
  - destruct u as [|c [|d u]]; try discriminate.
    unfold lower, lower_char. cbn [map].
    destruct ((0x41 <=? c) && (c <=? 0x5A)) eqn:E; intros [= H].
    + right. f_equal. lia.
    + left. f_equal. exact H.
  - intros [-> | ->]; reflexivity.
Qed.

(** ** What every step preserves *)

Section Preserves.

Variable R : world -> world -> Prop.
Hypothesis R_refl : forall w, R w w.
Hypothesis R_trans : forall w1 w2 w3, R w1 w2 -> R w2 w3 -> R w1 w3.

Lemma preserves_ret {A} (a : A) : preserves R (ret a).
Proof. intros w. apply R_refl. Qed.

Lemma preserves_raise {A} e : preserves R (@raise A e).
Proof. intros w. apply R_refl. Qed.

Lemma preserves_bind {A B} (m : M A) (k : A -> M B) :
  preserves R m -> (forall a, preserves R (k a)) -> preserves R (bind m k).
Proof.
  intros Hm Hk w. unfold bind. specialize (Hm w).
  destruct (m w) as [[a|e] w1]; cbn [snd] in *.
  - eapply R_trans; [exact Hm | apply Hk].
  - exact Hm.
Qed.

Lemma preserves_try_except {A} (m : M A) (handler : exn -> M A) :
  preserves R m -> (forall e, preserves R (handler e)) ->
  preserves R (try_except m handler).
Proof.
  intros Hm Hh w. unfold try_except. specialize (Hm w).
  destruct (m w) as [[a|e] w1]; cbn [snd] in *.
  - exact Hm.
  - eapply R_trans; [exact Hm | apply Hh].
Qed.

End Preserves.

Lemma extends_trace_refl w : extends_trace w w.
Proof. exists []. rewrite app_nil_r. reflexivity. Qed.

Lemma extends_trace_trans w1 w2 w3 :
  extends_trace w1 w2 -> extends_trace w2 w3 -> extends_trace w1 w3.
Proof.
  intros [t1 H1] [t2 H2]. exists (t1 ++ t2). rewrite H2, H1, app_assoc. reflexivity.
Qed.

Lemma same_stdin_refl w : same_stdin w w.
Proof. reflexivity. Qed.

Lemma same_stdin_trans w1 w2 w3 :
  same_stdin w1 w2 -> same_stdin w2 w3 -> same_stdin w1 w3.
Proof. unfold same_stdin. congruence. Qed.

Lemma print_extends text : preserves extends_trace (print text).
Proof. intros w. exists [Print text]. reflexivity. Qed.

Lemma input_extends prompt : preserves extends_trace (input prompt).
Proof. intros w. exists [Input prompt]. unfold input. destruct (stdin w); reflexivity. Qed.

Lemma subprocess_run_extends argv capture :
  preserves extends_trace (subprocess_run argv capture).
Proof.
  intros w. exists [Run argv capture]. unfold subprocess_run.
  destruct (external_tool w _ argv); reflexivity.
Qed.

Lemma print_same_stdin text : preserves same_stdin (print text).
Proof. intros w. reflexivity. Qed.

Lemma subprocess_run_same_stdin argv capture :
  preserves same_stdin (subprocess_run argv capture).
Proof.
  intros w. unfold subprocess_run. destruct (external_tool w _ argv); reflexivity.
Qed.

Create HintDb preserves.
#[local] Hint Resolve extends_trace_refl extends_trace_trans same_stdin_refl
  same_stdin_trans print_extends input_extends subprocess_run_extends
  print_same_stdin subprocess_run_same_stdin : preserves.

Ltac preserves_step :=
  match goal with
  | |- preserves _ (bind _ _) =>
      apply preserves_bind; [eauto with preserves | | intros ?]
  | |- preserves _ (try_except _ _) =>
      apply preserves_try_except; [eauto with preserves | | intros ?]
  | |- preserves _ (ret _) => apply preserves_ret; auto with preserves
  | |- preserves _ (raise _) => apply preserves_raise; auto with preserves
  | |- preserves _ (if ?b then _ else _) => destruct b
  | |- preserves _ (match ?x with _ => _ end) => destruct x
  | |- preserves _ _ => solve [auto with preserves]
  end.

(** ** The selection loop: the claims *)

Section Loop.

Variable to_decimal : char -> option Z.
Variable int_max_str_digits : nat.
Hypothesis to_decimal_ascii : ascii_digits to_decimal.

Local Abbreviation int_of := (py_int to_decimal int_max_str_digits).
Local Abbreviation one_pass := (loop_body to_decimal int_max_str_digits).
Local Abbreviation the_loop := (selection_loop to_decimal int_max_str_digits).

Lemma py_int_zero : int_of (lit "0") = Some 0%Z.
Proof.
  change (lit "0") with [48]. unfold py_int. cbn.
  rewrite (to_decimal_ascii 48) by reflexivity. cbn.
  destruct int_max_str_digits as [|[|k]]; reflexivity.
Qed.

Lemma py_int_c : int_of (lit "c") = None /\ int_of (lit "C") = None.
Proof.
  change (lit "c") with [99]. change (lit "C") with [67]. unfold py_int. cbn.
  rewrite (to_decimal_ascii 99), (to_decimal_ascii 67) by reflexivity.
  split; reflexivity.
Qed.

(** A string that [int] reads as a positive number is neither the cancel
    command nor ["0"]. *)
Lemma positive_choice_not_command u n :
  int_of u = Some n -> (1 <= n)%Z ->
  str_eqb (lower u) (lit "c") = false /\ str_eqb u (lit "0") = false.
Proof.
  intros Hint Hn. split; apply str_eqb_neq; intros H.
  - apply lower_is_c in H as [-> | ->];
      [rewrite (proj1 py_int_c) in Hint | rewrite (proj2 py_int_c) in Hint];
      discriminate.
  - subst u. rewrite py_int_zero in Hint. injection Hint as <-. lia.
Qed.

Lemma select_one_preserves R packages u :
  R = extends_trace \/ R = same_stdin ->
  preserves R (select_one to_decimal int_max_str_digits packages u).
Proof.
  intros [-> | ->]; unfold select_one, int_; repeat preserves_step.
Qed.

(** What a pass does after it has read the choice. *)
Lemma after_choice_preserves R packages u :
  R = extends_trace \/ R = same_stdin ->
  preserves R
    (if str_eqb (lower u) (lit "c") then
       bind (print msg_canceled) (fun _ => ret Return)
     else if str_eqb u (lit "0") then
       bind (print msg_all_start) (fun _ =>
       bind (subprocess_run upgrade_all_argv false) (fun _ =>
       bind (print msg_all_finished) (fun _ => ret Return)))
     else
       try_except (select_one to_decimal int_max_str_digits packages u)
         (fun e =>
            match e with
            | ValueError _ =>
                bind (print (msg_invalid_input (length packages)))
                  (fun _ => ret (Continue packages))
            | _ => raise e
            end)).
Proof.
  intros HR. pose proof (select_one_preserves R packages u HR) as Hsel.
  destruct HR as [-> | ->]; repeat preserves_step.
Qed.

(** Every pass begins by listing its candidates and asking for a choice,
    whatever happens afterwards. *)
Lemma pass_begins_with_listing packages w :
  exists tail,
    events (snd (one_pass packages w)) = events w ++ menu_events packages ++ tail.
Proof.
  unfold one_pass. destruct (stdin w) as [|line rest] eqn:Hin.
  - rewrite (listing_eof _ _ _ Hin). exists [].
    cbn [snd events add_events]. rewrite app_nil_r. reflexivity.
  - rewrite (listing_run _ _ _ _ _ Hin). cbv zeta.
    destruct (after_choice_preserves extends_trace packages (strip line)
                (or_introl eq_refl)
                (read_line (add_events (menu_events packages) w))) as [tail Htail].
    exists tail. rewrite Htail. cbn [events read_line add_events].
    rewrite app_assoc. reflexivity.
Qed.

(** A pass that does not raise has read one line. *)
Lemma pass_reads_a_line packages w c w' :
  one_pass packages w = (Ok c, w') -> exists line, stdin w = line :: stdin w'.
Proof.
  unfold loop_body. destruct (stdin w) as [|line rest] eqn:Hin.
  - rewrite (listing_eof _ _ _ Hin). discriminate.
  - rewrite (listing_run _ _ _ _ _ Hin). cbv zeta. intros Hbody.
    pose proof (after_choice_preserves same_stdin packages (strip line)
                  (or_intror eq_refl)
                  (read_line (add_events (menu_events packages) w))) as Hsame.
    rewrite Hbody in Hsame. unfold same_stdin in Hsame.
    cbn [snd stdin read_line add_events] in Hsame. rewrite Hin in Hsame.
    exists line. rewrite Hsame. reflexivity.
Qed.

(** The loop ends: every pass that goes on has read a line, so more fuel
    than there are lines to read is enough. *)
Lemma loop_terminates fuel : forall packages w,
  (length (stdin w) < fuel)%nat ->
  fst (the_loop fuel packages w) <> Ok None.
Proof.
  induction fuel as [|fuel IH]; intros packages w Hlen; [lia|].
  cbn [selection_loop]. unfold bind.
  destruct (one_pass packages w) as [[c|e] w'] eqn:Hbody; [|discriminate].
  destruct c as [|packages']; [discriminate|].
  apply pass_reads_a_line in Hbody as [line Hline].
  apply IH. rewrite Hline in Hlen. cbn [length] in Hlen. lia.
Qed.

Lemma loop_pass fuel packages w c w' :
  one_pass packages w = (Ok c, w') ->
  the_loop (S fuel) packages w
  = match c with
    | Return => (Ok (Some tt), w')
    | Continue packages' => the_loop fuel packages' w'
    end.
Proof.
  intros Hbody. cbn [selection_loop].
  erewrite bind_ok by exact Hbody. destruct c; reflexivity.
Qed.

Lemma loop_pass_raise fuel packages w e w' :
  one_pass packages w = (Raise e, w') ->
  the_loop (S fuel) packages w = (Raise e, w').
Proof.
  intros Hbody. cbn [selection_loop].
  erewrite bind_raise by exact Hbody. reflexivity.
Qed.

(** The tool is asked with the number of calls made before the pass: what
    the pass prints and reads before its call is no call. *)
Lemma runs_before_call packages texts w :
  runs (events (add_events (map Print texts)
                  (read_line (add_events (menu_events packages) w))))
  = runs (events w).
Proof.
  cbn [events add_events read_line].
  rewrite !runs_app, runs_menu, runs_prints, !app_nil_r. reflexivity.
Qed.

(** C6.  The choice is [user_input], the line read with the whitespace
    around it stripped.  When the choice is ["c"] or ["C"] the pass prints that the run is
    cancelled and returns: the loop ends, and no call of the external tool
    is made. *)
Theorem cancel_ends_loop packages w line rest :
  stdin w = line :: rest ->
  strip line = lit "c" \/ strip line = lit "C" ->
  let w' := add_events [Print msg_canceled]
              (read_line (add_events (menu_events packages) w)) in
  one_pass packages w = (Ok Return, w')
  /\ (forall fuel, the_loop (S fuel) packages w = (Ok (Some tt), w'))
  /\ runs (events w') = runs (events w).
Proof.
  intros Hin Hc w'.
  assert (Hbody : one_pass packages w = (Ok Return, w')).
  { unfold loop_body. rewrite (listing_run _ _ _ _ _ Hin). cbv zeta.
    replace (str_eqb (lower (strip line)) (lit "c")) with true
      by (symmetry; apply str_eqb_eq, lower_is_c; exact Hc).
    reflexivity. }
  split; [exact Hbody|]. split.
  - intros fuel. rewrite (loop_pass fuel _ _ _ _ Hbody). reflexivity.
  - apply (runs_before_call packages [msg_canceled] w).
Qed.

(** C5.  When the choice is ["0"] the pass calls the tool once, with the
    arguments [winget upgrade --all --accept-package-agreements
    --accept-source-agreements], and the loop ends at once, whatever the tool
    returns (the returned process is not looked at) and also when the call
    raises; nothing else is called, so no candidate is upgraded by itself. *)
Theorem upgrade_all_ends_loop packages w line rest :
  let argv := [lit "winget"; lit "upgrade"; lit "--all";
               lit "--accept-package-agreements"; lit "--accept-source-agreements"] in
  stdin w = line :: rest ->
  strip line = lit "0" ->
  let w1 := add_events [Print msg_all_start; Run argv false]
              (read_line (add_events (menu_events packages) w)) in
  let w2 := add_events [Print msg_all_finished] w1 in
  match external_tool w (length (runs (events w))) argv with
  | Completed _ =>
      one_pass packages w = (Ok Return, w2)
      /\ (forall fuel, the_loop (S fuel) packages w = (Ok (Some tt), w2))
      /\ runs (events w2) = runs (events w) ++ [Run argv false]
  | Raised e =>
      one_pass packages w = (Raise e, w1)
      /\ (forall fuel, the_loop (S fuel) packages w = (Raise e, w1))
      /\ runs (events w1) = runs (events w) ++ [Run argv false]
  end.
Proof.
  intros argv. change argv with upgrade_all_argv. clear argv.
  intros Hin Hzero w1 w2.
  assert (Hruns : runs (events w1) = runs (events w) ++ [Run upgrade_all_argv false]).
  { subst w1. cbn [events add_events read_line].
    rewrite !runs_app, runs_menu, app_nil_r. reflexivity. }
  assert (Hstep : one_pass packages w
                  = bind (subprocess_run upgrade_all_argv false)
                      (fun _ => bind (print msg_all_finished) (fun _ => ret Return))
                      (add_events [Print msg_all_start]
                         (read_line (add_events (menu_events packages) w)))).
  { unfold loop_body. rewrite (listing_run _ _ _ _ _ Hin). cbv zeta.
    rewrite Hzero. reflexivity. }
  pose proof (runs_before_call packages [msg_all_start] w) as Hbefore.
  cbn [map] in Hbefore.
  destruct (external_tool w (length (runs (events w))) upgrade_all_argv) as [p|e] eqn:Htool.
  - assert (Hbody : one_pass packages w = (Ok Return, w2)).
    { rewrite Hstep. erewrite bind_ok.
      2:{ apply subprocess_run_completed. rewrite Hbefore. exact Htool. }
      subst w2 w1. rewrite print_run_bind, !add_events_app. reflexivity. }
    split; [exact Hbody|]. split.
    + intros fuel. rewrite (loop_pass fuel _ _ _ _ Hbody). reflexivity.
    + subst w2. cbn [events add_events]. rewrite runs_app, app_nil_r. exact Hruns.
  - assert (Hbody : one_pass packages w = (Raise e, w1)).
    { rewrite Hstep. erewrite bind_raise.
      2:{ apply subprocess_run_raised. rewrite Hbefore. exact Htool. }
      subst w1. rewrite !add_events_app. reflexivity. }
    split; [exact Hbody|]. split.
    + intros fuel. apply loop_pass_raise. exact Hbody.
    + exact Hruns.
Qed.

(** The numbered choice, once [int] has read it and it is in range. *)
Lemma select_one_in_range packages u w n pkg p :
  int_of u = Some n ->
  (1 <= n <= Z.of_nat (length packages))%Z ->
  packages !! Z.to_nat (n - 1) = Some pkg ->
  external_tool w (length (runs (events w))) (upgrade_one_argv (id pkg)) = Completed p ->
  let shrunk := take (Z.to_nat (n - 1)) packages ++ drop (Z.to_nat n) packages in
  let w1 := add_events [Print (msg_one_start pkg);
                        Run (upgrade_one_argv (id pkg)) false;
                        Print (msg_one_finished pkg)] w in
  select_one to_decimal int_max_str_digits packages u w
  = match shrunk with
    | [] => (Ok Return, add_events [Print msg_all_done] w1)
    | _ :: _ => (Ok (Continue shrunk), w1)
    end.
Proof.
  intros Hint Hrange Hpkg Htool shrunk w1.
  unfold select_one, int_. rewrite Hint.
  unfold bind at 1. unfold ret at 1.
  replace ((1 <=? n) && (n <=? Z.of_nat (length packages)))%Z with true
    by (symmetry; apply andb_true_intro; split; apply Z.leb_le; lia).
  rewrite Hpkg, print_run_bind.
  erewrite bind_ok.
  2:{ apply subprocess_run_completed. cbn [events add_events].
      rewrite runs_app, app_nil_r. exact Htool. }
  rewrite print_run_bind, !add_events_app. cbv zeta.
  rewrite delete_take_drop.
  replace (S (Z.to_nat (n - 1))) with (Z.to_nat n) by lia.
  fold shrunk. cbn [app]. fold w1.
  destruct shrunk; reflexivity.
Qed.

(** C3.  When [int] reads the choice as a number [n] between 1 and the
    length of the list, the pass calls the tool once, with the arguments
    [winget upgrade --id ID --accept-package-agreements
    --accept-source-agreements] where [ID] is the id of the n-th candidate,
    and then takes that candidate out of the list, whatever process the call
    returned; the others keep their order.  When the list is then empty the
    loop ends; otherwise it goes on with the shorter list, and its next pass
    lists it. *)
Theorem upgrade_one_removes_entry packages w line rest n pkg p :
  let argv := [lit "winget"; lit "upgrade"; lit "--id"; id pkg;
               lit "--accept-package-agreements"; lit "--accept-source-agreements"] in
  stdin w = line :: rest ->
  int_of (strip line) = Some n ->
  (1 <= n <= Z.of_nat (length packages))%Z ->
  packages !! Z.to_nat (n - 1) = Some pkg ->
  external_tool w (length (runs (events w))) argv = Completed p ->
  let shrunk := take (Z.to_nat (n - 1)) packages ++ drop (Z.to_nat n) packages in
  let w1 := add_events [Print (msg_one_start pkg);
                        Run argv false;
                        Print (msg_one_finished pkg)]
              (read_line (add_events (menu_events packages) w)) in
  let w2 := add_events [Print msg_all_done] w1 in
  runs (events w1) = runs (events w) ++ [Run argv false]
  /\ S (length shrunk) = length packages
  /\ match shrunk with
     | [] =>
         one_pass packages w = (Ok Return, w2)
         /\ (forall fuel, the_loop (S fuel) packages w = (Ok (Some tt), w2))
         /\ runs (events w2) = runs (events w1)
     | _ :: _ =>
         one_pass packages w = (Ok (Continue shrunk), w1)
         /\ (forall fuel, the_loop (S fuel) packages w = the_loop fuel shrunk w1)
         /\ exists tail,
              events (snd (one_pass shrunk w1))
              = events w1 ++ menu_events shrunk ++ tail
     end.
Proof.
  intros argv. change argv with (upgrade_one_argv (id pkg)). clear argv.
  intros Hin Hint Hrange Hpkg Htool shrunk w1 w2.
  destruct (positive_choice_not_command _ _ Hint (proj1 Hrange)) as [Hc Hzero].
  assert (Hbody : one_pass packages w
                  = match shrunk with
                    | [] => (Ok Return, w2)
                    | _ :: _ => (Ok (Continue shrunk), w1)
                    end).
  { unfold loop_body. rewrite (listing_run _ _ _ _ _ Hin). cbv zeta.
    rewrite Hc, Hzero. unfold try_except.
    rewrite (select_one_in_range packages (strip line) _ n pkg p Hint Hrange Hpkg).
    - fold shrunk. destruct shrunk; reflexivity.
    - pose proof (runs_before_call packages [] w) as Hbefore.
      cbn [map] in Hbefore. rewrite add_events_nil in Hbefore.
      rewrite Hbefore. exact Htool. }
  split; [|split].
  - subst w1. cbn [events add_events read_line].
    rewrite !runs_app, runs_menu, app_nil_r. reflexivity.
  - subst shrunk. rewrite length_app, length_take, length_drop.
    apply lookup_lt_Some in Hpkg. lia.
  - destruct shrunk as [|q shrunk'].
    + split; [exact Hbody|]. split.
      * intros fuel. rewrite (loop_pass fuel _ _ _ _ Hbody). reflexivity.
      * subst w2. cbn [events add_events]. rewrite runs_app, app_nil_r. reflexivity.
    + split; [exact Hbody|]. split.
      * intros fuel. rewrite (loop_pass fuel _ _ _ _ Hbody). reflexivity.
      * apply pass_begins_with_listing.
Qed.

(** C4.  When the choice is none of ["c"], ["C"], ["0"] and [int] either
    rejects it or reads a number outside 1..length, the pass calls nothing,
    prints a diagnostic and leaves the list as it is; the loop goes on, and
    its next pass lists the same candidates and asks again. *)
Theorem invalid_choice_reprompts packages w line rest :
  stdin w = line :: rest ->
  strip line <> lit "c" -> strip line <> lit "C" -> strip line <> lit "0" ->
  match int_of (strip line) with
  | Some n => ~ (1 <= n <= Z.of_nat (length packages))%Z
  | None => True
  end ->
  let diagnostic :=
    match int_of (strip line) with
    | Some _ => msg_invalid_option (length packages)
    | None => msg_invalid_input (length packages)
    end in
  let w' := add_events [Print diagnostic]
              (read_line (add_events (menu_events packages) w)) in
  one_pass packages w = (Ok (Continue packages), w')
  /\ runs (events w') = runs (events w)
  /\ (forall fuel, the_loop (S fuel) packages w = the_loop fuel packages w')
  /\ exists tail,
       events (snd (one_pass packages w')) = events w' ++ menu_events packages ++ tail.
Proof.
  intros Hin Hc HC Hzero Hbad diagnostic w'.
  assert (Hbody : one_pass packages w = (Ok (Continue packages), w')).
  { unfold loop_body. rewrite (listing_run _ _ _ _ _ Hin). cbv zeta.
    rewrite (str_eqb_neq (lower (strip line)) (lit "c"))
      by (intros H; apply lower_is_c in H as [H | H]; contradiction).
    rewrite (str_eqb_neq _ _ Hzero).
    unfold try_except, select_one, int_. subst w' diagnostic.
    destruct (int_of (strip line)) as [n|]; [|reflexivity].
    unfold bind at 1. unfold ret at 1.
    replace ((1 <=? n) && (n <=? Z.of_nat (length packages)))%Z with false;
      [reflexivity|].
    symmetry. apply andb_false_iff.
    destruct (Z.leb_spec 1 n); [|left; reflexivity].
    right. apply Z.leb_gt. lia. }
  split; [exact Hbody|]. split; [|split].
  - apply (runs_before_call packages [diagnostic] w).
  - intros fuel. rewrite (loop_pass fuel _ _ _ _ Hbody). reflexivity.
  - apply pass_begins_with_listing.
Qed.

(** The whole run ends as well, with more fuel than lines to read. *)
Lemma run_terminates fuel w :
  (length (stdin w) < fuel)%nat ->
  fst (run_winget_upgrade_manager to_decimal int_max_str_digits fuel w) <> Ok None.
Proof.
  intros Hlen. unfold run_winget_upgrade_manager, platform_system_.
  unfold bind at 1.
  destruct (negb (str_eqb (platform_system w) (lit "Windows"))); [discriminate|].
  rewrite print_run_bind. unfold try_except, bind at 1, subprocess_run.
  cbn [external_tool events add_events].
  destruct (external_tool w _ _) as [result|e].
  - destruct (negb (truthy_list (parse_winget_output (stdout result))));
      [discriminate|].
    match goal with
    | |- context [bind ?warn _ ?w1] =>
        assert (Hwarn : exists w2, warn w1 = (Ok tt, w2) /\ stdin w2 = stdin w)
    end.
    { destruct (truthy (stderr result) && _); eexists; split; reflexivity. }
    destruct Hwarn as (w2 & Hwarn & Hstdin).
    erewrite bind_ok by exact Hwarn.
    pose proof (loop_terminates fuel (parse_winget_output (stdout result)) w2) as Hloop.
    rewrite Hstdin in Hloop. specialize (Hloop Hlen).
    destruct (the_loop fuel _ w2) as [[r|e] w3]; cbn [fst] in *.
    + exact Hloop.
    + destruct e; discriminate.
  - destruct e; discriminate.
Qed.

End Loop.

Lemma ascii_decimal_ascii : ascii_digits ascii_decimal.
Proof. intros c _. reflexivity. Qed.

Lemma upgrade_one_removes_entry_witness :
  loop_body ascii_decimal 4300 [pkg_foo; pkg_baz; pkg_qux] (sample_world [lit "2"] 1)
  = (Ok (Continue [pkg_foo; pkg_qux]),
     add_events [Print (msg_one_start pkg_baz);
                 Run [lit "winget"; lit "upgrade"; lit "--id"; lit "Baz.Id";
                      lit "--accept-package-agreements";
                      lit "--accept-source-agreements"] false;
                 Print (msg_one_finished pkg_baz)]
       (read_line (add_events (menu_events [pkg_foo; pkg_baz; pkg_qux])
                     (sample_world [lit "2"] 1)))).
Proof.
  assert (Hrange : (1 <= 2 <= Z.of_nat (length [pkg_foo; pkg_baz; pkg_qux]))%Z)
    by (cbn; lia).
  pose proof (upgrade_one_removes_entry ascii_decimal 4300 ascii_decimal_ascii
                [pkg_foo; pkg_baz; pkg_qux] (sample_world [lit "2"] 1)
                (lit "2") [] 2%Z pkg_baz (CompletedProcess 1 [] [])
                eq_refl eq_refl Hrange eq_refl eq_refl) as H.
  cbv zeta in H. destruct H as (_ & _ & H).
  exact (proj1 H).
Defined.

Lemma invalid_choice_reprompts_witness :
  loop_body ascii_decimal 4300 [pkg_foo; pkg_baz; pkg_qux] (sample_world [lit "5"] 0)
  = (Ok (Continue [pkg_foo; pkg_baz; pkg_qux]),
     add_events [Print (msg_invalid_option 3)]
       (read_line (add_events (menu_events [pkg_foo; pkg_baz; pkg_qux])
                     (sample_world [lit "5"] 0)))).
Proof.
  assert (Hc : strip (lit "5") <> lit "c") by (vm_compute; discriminate).
  assert (HC : strip (lit "5") <> lit "C") by (vm_compute; discriminate).
  assert (Hzero : strip (lit "5") <> lit "0") by (vm_compute; discriminate).
  assert (Hbad : match py_int ascii_decimal 4300 (strip (lit "5")) with
                 | Some n => ~ (1 <= n <= Z.of_nat (length [pkg_foo; pkg_baz; pkg_qux]))%Z
                 | None => True
                 end)
    by (change (~ (1 <= 5 <= 3)%Z); lia).
  exact (proj1 (invalid_choice_reprompts ascii_decimal 4300
                  [pkg_foo; pkg_baz; pkg_qux] (sample_world [lit "5"] 0)
                  (lit "5") [] eq_refl Hc HC Hzero Hbad)).
Defined.

Lemma upgrade_all_ends_loop_witness :
  selection_loop ascii_decimal 4300 1 [pkg_foo; pkg_baz] (sample_world [lit "0"] 1)
  = (Ok (Some tt),
     add_events [Print msg_all_finished]
       (add_events [Print msg_all_start; Run [lit "winget"; lit "upgrade"; lit "--all";
                                       lit "--accept-package-agreements";
                                       lit "--accept-source-agreements"] false]
          (read_line (add_events (menu_events [pkg_foo; pkg_baz])
                        (sample_world [lit "0"] 1))))).
Proof.
  pose proof (upgrade_all_ends_loop ascii_decimal 4300 [pkg_foo; pkg_baz]
                (sample_world [lit "0"] 1) (lit "0") [] eq_refl eq_refl) as H.
  cbv zeta in H. cbn [external_tool sample_world] in H.
  destruct H as (_ & H & _). exact (H 0%nat).
Defined.

Lemma cancel_ends_loop_witness :
  selection_loop ascii_decimal 4300 1 [pkg_foo; pkg_baz] (sample_world [lit " C "] 0)
  = (Ok (Some tt),
     add_events [Print msg_canceled]
       (read_line (add_events (menu_events [pkg_foo; pkg_baz])
                     (sample_world [lit " C "] 0)))).
Proof.
  exact (proj1 (proj2 (cancel_ends_loop ascii_decimal 4300 [pkg_foo; pkg_baz]
                         (sample_world [lit " C "] 0) (lit " C ") []
                         eq_refl (or_intror eq_refl))) 0%nat).
Defined.

(** ** Runs of the loop and of the program *)

(** One candidate left and the choice ["1"]: one call, and the loop ends
    without reading the next line. *)
Example last_candidate_run :
  fst (selection_loop ascii_decimal 4300 3 [pkg_foo]
         (sample_world [lit "1"; lit "2"] 1)) = Ok (Some tt)
  /\ runs (events (snd (selection_loop ascii_decimal 4300 3 [pkg_foo]
                          (sample_world [lit "1"; lit "2"] 1))))
     = [Run (upgrade_one_argv (lit "FooBar.Id")) false]
  /\ stdin (snd (selection_loop ascii_decimal 4300 3 [pkg_foo]
                   (sample_world [lit "1"; lit "2"] 1))) = [lit "2"].
Proof. repeat split; vm_compute; reflexivity. Qed.

(** A whole run: three candidates listed; the user picks the second, then
    types a number out of range, then a word, then cancels. *)
Example whole_run :
  fst (run_winget_upgrade_manager ascii_decimal 4300 5
         (report_world [lit " 2 "; lit "7"; lit "x"; lit "c"]
            (join_lines [header; lit "-----------"; row_foo; row_baz; row_qux;
                         lit "3 upgrades available."]))) = Ok (Some tt)
  /\ runs (events (snd (run_winget_upgrade_manager ascii_decimal 4300 5
         (report_world [lit " 2 "; lit "7"; lit "x"; lit "c"]
            (join_lines [header; lit "-----------"; row_foo; row_baz; row_qux;
                         lit "3 upgrades available."])))))
     = [Run [lit "winget"; lit "upgrade"] true;
        Run (upgrade_one_argv (lit "Baz.Id")) false].
Proof. split; vm_compute; reflexivity. Qed.

(** A digit of another script is a digit for [int] when the interpreter's
    table says so: with the fullwidth digits in the table, the fullwidth
    two picks the second candidate. *)
Example fullwidth_choice :
  py_int (fun c => if (0xFF10 <=? c) && (c <=? 0xFF19)
                   then Some (Z.of_N (c - 0xFF10)) else ascii_decimal c)
         4300 [0xFF12] = Some 2%Z.
Proof. reflexivity. Qed.

(** ** More on the parser *)

Lemma rows_of_skip before line after :
  is_separator line = false -> row_candidate line = None ->
  rows_of (before ++ line :: after) = rows_of (before ++ after).
Proof.
  intros Hsep Hnone. unfold rows_of.
  induction before as [|b before IH]; cbn [app].
  - rewrite data_rows_cons, Hsep. reflexivity.
  - rewrite !data_rows_cons. destruct (is_separator b); [|exact IH].
    apply omap_without. exact Hnone.
Qed.

Lemma found_not_separator line :
  startswith (strip line) (lit "Found") = true -> is_separator line = false.
Proof.
  unfold is_separator, startswith_any. cbn [existsb].
  destruct (strip line) as [|c r]; [discriminate|].
  change (lit "Found") with (70 :: lit "ound").
  change (lit "---") with (45 :: lit "--").
  change (lit "====") with (61 :: lit "===").
  cbn [startswith]. intros H. apply andb_prop in H as [Hc _].
  apply N.eqb_eq in Hc. subst c. reflexivity.
Qed.

Lemma skipped_line line :
  strip line = [] \/ startswith (strip line) (lit "Found") = true ->
  is_separator line = false /\ row_candidate line = None.
Proof.
  intros [Hblank | Hfound].
  - unfold is_separator, row_candidate. rewrite Hblank. split; reflexivity.
  - split; [apply found_not_separator; exact Hfound|].
    unfold row_candidate. cbv zeta. rewrite Hfound, orb_true_r. reflexivity.
Qed.

(** X1.  Whitespace before and after the report (blank lines, indentation
    of the first line, a trailing newline) changes nothing of what the
    parser returns. *)
Theorem parse_ignores_surrounding_whitespace w1 output w2 :
  all_space w1 -> all_space w2 ->
  parse_winget_output (w1 ++ output ++ w2) = parse_winget_output output.
Proof.
  intros H1 H2. rewrite !parse_rows_of, !split_app.
  rewrite rows_glue_l;
    [| apply split_all_space; exact H1 | apply glue_not_nil, split_not_nil].
  apply rows_glue_r; [apply split_not_nil | apply split_all_space; exact H2].
Qed.

Lemma parse_ignores_surrounding_whitespace_witness :
  parse_winget_output
    ((lit "  " ++ [NL]) ++ join_lines [header; lit "-----"; row_foo] ++ [13; NL; NL])
  = [pkg_foo].
Proof.
  rewrite (parse_ignores_surrounding_whitespace (lit "  " ++ [NL])
             (join_lines [header; lit "-----"; row_foo]) [13; NL; NL]).
  - vm_compute. reflexivity.
  - apply Forall_check. vm_compute. reflexivity.
  - apply Forall_check. vm_compute. reflexivity.
Defined.

(** X2.  A line that is blank or starts with [Found], wherever it stands in
    the report (before or after the separator), can be taken out or put in
    without changing the result. *)
Theorem skipped_lines_change_nothing output output' before line after :
  split NL output = before ++ after ->
  split NL output' = before ++ line :: after ->
  strip line = [] \/ startswith (strip line) (lit "Found") = true ->
  parse_winget_output output' = parse_winget_output output.
Proof.
  intros Hlines Hlines' Hskip.
  destruct (skipped_line line Hskip) as [Hsep Hnone].
  rewrite !parse_rows_of, Hlines, Hlines'.
  apply rows_of_skip; assumption.
Qed.

Lemma skipped_lines_change_nothing_witness :
  parse_winget_output
    (join_lines [header; lit "-----"; row_foo; lit "  Found 2 more  x  y  z  w"; row_baz])
  = parse_winget_output (join_lines [header; lit "-----"; row_foo; row_baz]).
Proof.
  apply (skipped_lines_change_nothing
           (join_lines [header; lit "-----"; row_foo; row_baz])
           (join_lines [header; lit "-----"; row_foo;
                        lit "  Found 2 more  x  y  z  w"; row_baz])
           [header; lit "-----"; row_foo] (lit "  Found 2 more  x  y  z  w") [row_baz]
           eq_refl eq_refl).
  right. vm_compute. reflexivity.
Defined.

(** X3.  The parser returns fewer candidates than the text has lines: a
    text of one line gives none, whatever the line. *)
Theorem parse_fewer_than_lines output :
  (length (parse_winget_output output) < length (split NL output))%nat.
Proof.
  rewrite parse_rows_of. unfold rows_of.
  assert (Homap : forall rows, (length (omap row_candidate rows) <= length rows)%nat).
  { induction rows as [|r rows IH]; cbn; [lia|].
    destruct (row_candidate r); cbn; lia. }
  assert (Hrows : forall lines, lines <> [] ->
            (length (data_rows lines) < length lines)%nat).
  { induction lines as [|l lines IH]; [congruence|]. intros _.
    rewrite data_rows_cons. destruct (is_separator l); cbn [length]; [lia|].
    destruct lines as [|l' lines']; [cbn; lia|].
    specialize (IH ltac:(discriminate)). lia. }
  specialize (Hrows (split NL output) (split_not_nil NL output)).
  specialize (Homap (data_rows (split NL output))). lia.
Qed.

Lemma re_split_from_not_nil b s : re_split_from b s <> [].
Proof.
  revert b. induction s as [|c r IH]; intros b; simpl; [discriminate|].
  destruct (is_space c); [destruct b; [apply IH|]|].
  - destruct (head_is_space r); [discriminate|].
    destruct (re_split_from false r); discriminate.
  - destruct (re_split_from false r); discriminate.
Qed.

(** No field holds a run of whitespace, and a field that is read from its
    first character on starts as the text does. *)
Lemma re_split_from_single_spaced s :
  (forall b, Forall (fun f => single_spaced f = true) (re_split_from b s))
  /\ (head_is_space s = false ->
      head_is_space (hd [] (re_split_from false s)) = false).
Proof.
  induction s as [|c r [IHall IHhead]].
  - split; [intros b; repeat constructor | reflexivity].
  - assert (Hcons : is_space c = false \/ head_is_space r = false ->
              Forall (fun f => single_spaced f = true)
                (cons_head c (re_split_from false r))).
    { intros Hc. specialize (IHall false).
      destruct (re_split_from false r) as [|f0 rest] eqn:E;
        [exfalso; eapply re_split_from_not_nil; exact E|].
      cbn [cons_head]. inversion IHall as [|? ? Hf0 Hrest]; subst.
      constructor; [|exact Hrest].
      cbn [single_spaced]. rewrite Hf0, andb_true_r.
      destruct Hc as [Hc | Hr]; [rewrite Hc; reflexivity|].
      specialize (IHhead Hr). cbn [hd] in IHhead. rewrite IHhead, andb_false_r.
      reflexivity. }
    split.
    + intros b. simpl. destruct (is_space c) eqn:Hc.
      * destruct b; [apply IHall|].
        destruct (head_is_space r) eqn:Hr.
        -- constructor; [reflexivity | apply IHall].
        -- apply Hcons. right. reflexivity.
      * apply Hcons. left. reflexivity.
    + simpl. intros Hc. rewrite Hc.
      destruct (re_split_from false r); cbn; exact Hc.
Qed.

Lemma field_column i row :
  strip row <> [] -> (i < length (row_fields row))%nat ->
  field i row = nth i (row_fields row) [] /\ column (field i row).
Proof.
  intros Hne Hi. unfold field.
  pose proof (fields_of_trimmed_line row Hne) as Hclean.
  pose proof (proj1 (List.Forall_nth _ _) Hclean i [] Hi) as Hc.
  pose proof (proj1 (re_split_from_single_spaced (strip row)) false) as Hss.
  pose proof (proj1 (List.Forall_nth _ _) Hss i [] Hi) as Hs.
  rewrite (clean_strip _ Hc). split; [reflexivity|]. split; [exact Hc | exact Hs].
Qed.

Lemma valid_row_fields row :
  valid_row row = true -> strip row <> [] /\ (5 <= length (row_fields row))%nat.
Proof.
  unfold valid_row. intros H.
  apply andb_prop in H as [H _]. apply andb_prop in H as [H _].
  apply andb_prop in H as [H Hlen]. apply andb_prop in H as [Ht _].
  split; [apply truthy_nonempty; exact Ht | apply Nat.leb_le; exact Hlen].
Qed.

(** X4.  Each of the four fields of every candidate the parser returns is a
    column: not empty, without whitespace at either end and without two
    whitespace characters in a row. *)
Theorem candidate_fields_are_columns output p :
  In p (parse_winget_output output) ->
  column (name p) /\ column (id p) /\ column (version p) /\ column (available p).
Proof.
  intros Hin. rewrite parse_rows_of in Hin. unfold rows_of in Hin.
  apply list_elem_of_In, list_elem_of_omap in Hin as (row & _ & Hrow).
  rewrite row_candidate_valid in Hrow.
  destruct (valid_row row) eqn:Hv; [|discriminate]. injection Hrow as <-.
  destruct (valid_row_fields row Hv) as [Hne Hlen]. cbn [candidate_of name id version available].
  repeat split; apply field_column; (exact Hne || lia).
Qed.

Lemma candidate_fields_are_columns_witness :
  column (lit "Foo Bar") /\ column (lit "FooBar.Id")
  /\ column (lit "1.0") /\ column (lit "2.0").
Proof.
  apply (candidate_fields_are_columns (join_lines [lit "-----"; row_foo]) pkg_foo).
  vm_compute. left. reflexivity.
Defined.

Lemma row_candidate_by_field_count row :
  row_candidate row
  = if truthy (strip row) && negb (startswith (strip row) (lit "Found"))
       && (5 <=? length (row_fields row))%nat
    then Some {| name := nth 0 (row_fields row) [];
                 id := nth 1 (row_fields row) [];
                 version := nth 2 (row_fields row) [];
                 available := nth 3 (row_fields row) [] |}
    else None.
Proof.
  rewrite row_candidate_valid. rewrite <- name_id_test_redundant.
  destruct (valid_row row) eqn:Hv; [|reflexivity].
  destruct (valid_row_fields row Hv) as [Hne Hlen].
  unfold candidate_of.
  rewrite (proj1 (field_column 0 row Hne ltac:(lia))).
  rewrite (proj1 (field_column 1 row Hne ltac:(lia))).
  rewrite (proj1 (field_column 2 row Hne ltac:(lia))).
  rewrite (proj1 (field_column 3 row Hne ltac:(lia))).
  reflexivity.
Qed.

(** X5.  Whether a line after the separator gives a candidate is decided by
    three tests only: its trimmed content is not empty, does not start with
    [Found], and splits into five fields or more.  The test of the name and
    of the id never rejects such a line, and stripping the fields changes
    nothing: the candidate is made of the first four fields as they are. *)
Theorem row_decided_by_field_count row :
  row_candidate row
  = if truthy (strip row) && negb (startswith (strip row) (lit "Found"))
       && (5 <=? length (row_fields row))%nat
    then Some {| name := nth 0 (row_fields row) [];
                 id := nth 1 (row_fields row) [];
                 version := nth 2 (row_fields row) [];
                 available := nth 3 (row_fields row) [] |}
    else None.
Proof. apply row_candidate_by_field_count. Qed.

(** ** Columns printed and read back *)

Lemma re_split_after_run s t :
  all_space s -> t <> [] -> head_is_space t = false ->
  re_split_from true (s ++ t) = re_split_from false t.
Proof.
  intros Hs Hne Hhead. induction Hs as [|c s Hc _ IH]; cbn [app].
  - destruct t as [|d t']; [congruence|]. cbn in Hhead. simpl. rewrite Hhead.
    reflexivity.
  - simpl. rewrite Hc. exact IH.
Qed.

Lemma single_spaced_cons c f :
  single_spaced (c :: f) = true ->
  (is_space c = false \/ head_is_space f = false) /\ single_spaced f = true.
Proof.
  cbn [single_spaced]. intros H. apply andb_prop in H as [Hc Hf].
  split; [|exact Hf]. apply negb_true_iff, andb_false_iff in Hc. exact Hc.
Qed.

(** A column followed by a run of two or more whitespace characters and by
    more text is the first field, and the rest is split on its own. *)
Lemma re_split_column_then f s t :
  single_spaced f = true -> last_is_space f = false ->
  all_space s -> (2 <= length s)%nat -> t <> [] -> head_is_space t = false ->
  re_split_from false (f ++ s ++ t) = f :: re_split_from false t.
Proof.
  intros Hss Hlast Hs Hlen Hne Hhead. induction f as [|c f IH]; cbn [app].
  - destruct Hs as [|a s Ha Hs]; [cbn in Hlen; lia|].
    destruct Hs as [|b s Hb Hs]; [cbn in Hlen; lia|].
    cbn [app]. cbn [re_split_from]. rewrite Ha. cbn [head_is_space]. rewrite Hb.
    f_equal. apply (re_split_after_run s t); assumption.
  - apply single_spaced_cons in Hss as [Hc Hss].
    rewrite last_is_space_cons in Hlast.
    assert (Hlast' : last_is_space f = false) by (destruct f; [reflexivity | exact Hlast]).
    specialize (IH Hss Hlast').
    cbn [re_split_from]. destruct (is_space c) eqn:Hsp.
    + destruct Hc as [Hc | Hc]; [discriminate|].
      destruct f as [|d f']; [congruence|].
      cbn [app head_is_space] in *. rewrite Hc, IH. reflexivity.
    + rewrite IH. reflexivity.
Qed.

Lemma re_split_column f :
  single_spaced f = true -> last_is_space f = false -> re_split_from false f = [f].
Proof.
  intros Hss Hlast. induction f as [|c f IH]; [reflexivity|].
  apply single_spaced_cons in Hss as [Hc Hss].
  rewrite last_is_space_cons in Hlast.
  assert (Hlast' : last_is_space f = false) by (destruct f; [reflexivity | exact Hlast]).
  specialize (IH Hss Hlast').
  cbn [re_split_from]. destruct (is_space c) eqn:Hsp.
  - destruct Hc as [Hc | Hc]; [discriminate|].
    destruct f as [|d f']; [congruence|].
    rewrite Hc, IH. reflexivity.
  - rewrite IH. reflexivity.
Qed.

Lemma last_is_space_app a b : b <> [] -> last_is_space (a ++ b) = last_is_space b.
Proof.
  intros Hb. induction a as [|c a IH]; [reflexivity|].
  cbn [app]. rewrite last_is_space_cons.
  destruct (a ++ b) eqn:E; [|exact IH].
  destruct a; [cbn in E; congruence | discriminate].
Qed.

Lemma join_columns_ends sep fs :
  Forall column fs -> fs <> [] ->
  join sep fs <> [] /\ head_is_space (join sep fs) = false
  /\ last_is_space (join sep fs) = false.
Proof.
  intros Hall Hne. induction Hall as [|f fs [(Hf & Hh & Hl) _] Hfs IH]; [congruence|].
  destruct fs as [|g fs'].
  - cbn [join]. repeat split; assumption.
  - destruct (IH ltac:(discriminate)) as (IHne & _ & IHlast).
    change (join sep (f :: g :: fs')) with (f ++ sep ++ join sep (g :: fs')).
    destruct f as [|c f']; [congruence|]. repeat split.
    + discriminate.
    + exact Hh.
    + rewrite app_assoc. rewrite last_is_space_app by exact IHne. exact IHlast.
Qed.

Lemma re_split_join_columns sep fs :
  Forall column fs -> fs <> [] -> all_space sep -> (2 <= length sep)%nat ->
  re_split_ws2 (join sep fs) = fs.
Proof.
  intros Hall Hne Hsep Hlen. unfold re_split_ws2.
  induction Hall as [|f fs [(Hf & Hh & Hl) Hss] Hfs IH]; [congruence|].
  destruct fs as [|g fs'].
  - cbn [join]. apply re_split_column; assumption.
  - change (join sep (f :: g :: fs')) with (f ++ sep ++ join sep (g :: fs')).
    destruct (join_columns_ends sep (g :: fs') Hfs ltac:(discriminate))
      as (Hjne & Hjh & _).
    rewrite re_split_column_then by assumption.
    rewrite IH by discriminate. reflexivity.
Qed.

Lemma strip_join_columns sep fs :
  Forall column fs -> fs <> [] -> strip (join sep fs) = join sep fs.
Proof.
  intros Hall Hne. destruct (join_columns_ends sep fs Hall Hne) as (_ & Hh & Hl).
  unfold strip. rewrite (lstrip_id _ Hh). apply rstrip_id. exact Hl.
Qed.

Lemma row_of_columns sep fs :
  Forall column fs -> (5 <= length fs)%nat ->
  all_space sep -> (2 <= length sep)%nat ->
  startswith (join sep fs) (lit "Found") = false ->
  row_candidate (join sep fs)
  = Some {| name := nth 0 fs []; id := nth 1 fs [];
            version := nth 2 fs []; available := nth 3 fs [] |}.
Proof.
  intros Hall Hlen Hsep Hslen Hfound.
  assert (Hne : fs <> []) by (destruct fs; [cbn in Hlen; lia | discriminate]).
  rewrite row_candidate_by_field_count. unfold row_fields.
  rewrite (strip_join_columns sep fs Hall Hne).
  rewrite (re_split_join_columns sep fs Hall Hne Hsep Hslen).
  rewrite Hfound.
  rewrite (nonempty_truthy _ (proj1 (join_columns_ends sep fs Hall Hne))).
  replace (5 <=? length fs)%nat with true by (symmetry; apply Nat.leb_le; exact Hlen).
  reflexivity.
Qed.

Lemma column_check f : columnb f = true -> column f.
Proof.
  unfold columnb, column, clean. intros H.
  apply andb_prop in H as [H Hss]. apply andb_prop in H as [H Hl].
  apply andb_prop in H as [Ht Hh].
  apply negb_true_iff in Hl, Hh.
  repeat split; try assumption. apply truthy_nonempty. exact Ht.
Qed.

Lemma columns_check fs : forallb columnb fs = true -> Forall column fs.
Proof.
  intros H. apply Forall_check in H. eapply Forall_impl; [exact H|].
  intros f. apply column_check.
Qed.

(** X6.  Printing and reading back: when the lines after the separator are
    rows of five columns or more, written one after the other with a run of
    two or more whitespace characters between them (each column not empty,
    without whitespace at its ends and without two whitespace characters in
    a row, the row not starting with [Found]), the parser returns, row by
    row, the first four columns as they were written. *)
Theorem table_round_trip output pre rule sep table :
  split NL output = pre ++ rule :: map (join sep) table ->
  Forall not_separator pre -> is_separator rule = true ->
  all_space sep -> (2 <= length sep)%nat ->
  Forall (fun fs => Forall column fs /\ (5 <= length fs)%nat
                    /\ startswith (join sep fs) (lit "Found") = false) table ->
  parse_winget_output output
  = map (fun fs => {| name := nth 0 fs []; id := nth 1 fs [];
                      version := nth 2 fs []; available := nth 3 fs [] |}) table.
Proof.
  intros Hlines Hpre Hrule Hsep Hlen Htable.
  destruct (rows_after_first_separator _ _ _ _ Hlines Hpre Hrule) as [-> _].
  clear Hlines.
  induction Htable as [|fs table (Hcols & Hfive & Hfound) _ IH]; [reflexivity|].
  cbn [map]. cbn. rewrite (row_of_columns sep fs Hcols Hfive Hsep Hlen Hfound).
  cbn. f_equal. exact IH.
Qed.

Lemma table_round_trip_witness :
  parse_winget_output
    (join_lines
       [header; lit "-----";
        join (lit "   ") [lit "Foo Bar"; lit "FooBar.Id"; lit "1.0"; lit "2.0"; lit "winget"];
        join (lit "   ") [lit "Baz"; lit "Baz.Id"; lit "1.1"; lit "2.1"; lit "winget"; lit "x"]])
  = [pkg_foo; pkg_baz].
Proof.
  apply (table_round_trip _ [header] (lit "-----") (lit "   ")
           [[lit "Foo Bar"; lit "FooBar.Id"; lit "1.0"; lit "2.0"; lit "winget"];
            [lit "Baz"; lit "Baz.Id"; lit "1.1"; lit "2.1"; lit "winget"; lit "x"]]).
  - vm_compute. reflexivity.
  - apply not_separator_check. vm_compute. reflexivity.
  - vm_compute. reflexivity.
  - apply Forall_check. vm_compute. reflexivity.
  - vm_compute. lia.
  - constructor; [|constructor; [|constructor]];
      (split; [apply columns_check; vm_compute; reflexivity|];
       split; [cbn; lia | vm_compute; reflexivity]).
Defined.

(** ** The passes of the selection loop, case by case *)

Section Passes.

Variable to_decimal : char -> option Z.
Variable int_max_str_digits : nat.

Local Abbreviation one_pass := (loop_body to_decimal int_max_str_digits).
Local Abbreviation the_loop := (selection_loop to_decimal int_max_str_digits).
Local Abbreviation the_run := (run_winget_upgrade_manager to_decimal int_max_str_digits).

Lemma select_one_outcome packages u w :
  exists r new,
    try_except (select_one to_decimal int_max_str_digits packages u)
      (fun e =>
         match e with
         | ValueError _ =>
             bind (print (msg_invalid_input (length packages)))
               (fun _ => ret (Continue packages))
         | _ => raise e
         end) w
    = (r, add_events new w)
    /\ pass_outcome packages r new.
Proof.
  unfold try_except, select_one, int_.
  destruct (py_int to_decimal int_max_str_digits u) as [n|].
  2:{ eexists _, _. split; [reflexivity | constructor]. }
  unfold bind at 1. unfold ret at 1.
  destruct ((1 <=? n) && (n <=? Z.of_nat (length packages)))%Z eqn:Hrange.
  2:{ eexists _, _. split; [reflexivity | constructor]. }
  apply andb_prop in Hrange as [Hlo Hhi]. apply Z.leb_le in Hlo, Hhi.
  destruct (packages !! Z.to_nat (n - 1)) as [pkg|] eqn:Hpkg.
  2:{ apply lookup_ge_None in Hpkg. lia. }
  rewrite print_run_bind. unfold bind at 1, subprocess_run.
  destruct (external_tool _ _ _) as [p|e].
  - rewrite print_run_bind. cbv zeta.
    destruct (delete (Z.to_nat (n - 1)) packages) as [|q rest] eqn:Hdel.
    + eexists _, _. split.
      * cbn [truthy_list negb]. rewrite print_run_bind. unfold ret, emit.
        rewrite !add_events_app. reflexivity.
      * cbn [app]. eapply pass_upgrade_last; eassumption.
    + eexists _, _. split.
      * cbn [truthy_list negb]. unfold ret, emit. rewrite !add_events_app. reflexivity.
      * cbn [app]. rewrite <- Hdel. eapply pass_upgrade_one; [eassumption|].
        rewrite Hdel. discriminate.
  - destruct e as [msg| |msg|].
    + eexists _, _. split.
      * rewrite print_run_bind. unfold ret, emit. rewrite !add_events_app. reflexivity.
      * cbn [app]. eapply pass_upgrade_one_value_error; eassumption.
    + eexists _, _. split.
      * unfold raise, emit. rewrite !add_events_app. reflexivity.
      * cbn [app]. eapply pass_upgrade_one_raised; [eassumption | discriminate].
    + eexists _, _. split.
      * unfold raise, emit. rewrite !add_events_app. reflexivity.
      * cbn [app]. eapply pass_upgrade_one_raised; [eassumption | discriminate].
    + eexists _, _. split.
      * unfold raise, emit. rewrite !add_events_app. reflexivity.
      * cbn [app]. eapply pass_upgrade_one_raised; [eassumption | discriminate].
Qed.

Lemma pass_cases packages w line rest :
  stdin w = line :: rest ->
  exists r new,
    one_pass packages w
    = (r, add_events new (read_line (add_events (menu_events packages) w)))
    /\ pass_outcome packages r new.
Proof.
  intros Hin. unfold loop_body. rewrite (listing_run _ _ _ _ _ Hin). cbv zeta.
  destruct (str_eqb (lower (strip line)) (lit "c")).
  { eexists _, _. split; [reflexivity | constructor]. }
  destruct (str_eqb (strip line) (lit "0")).
  { rewrite print_run_bind. unfold bind at 1, subprocess_run.
    destruct (external_tool _ _ _) as [p|e].
    - eexists _, _. split.
      + rewrite print_run_bind. unfold ret, emit. rewrite !add_events_app. reflexivity.
      + constructor.
    - eexists _, _. split.
      + unfold emit. rewrite !add_events_app. reflexivity.
      + constructor. }
  apply select_one_outcome.
Qed.

(** X7.  A pass that has a line to read lists the candidates, asks, and then
    does exactly one of nine things: cancel; upgrade everything (the call
    returns, or raises and the pass raises with it); report an input that is
    no number; report a number out of range; upgrade one candidate and go on
    without it; upgrade the last one and return; keep the candidate when its
    upgrade raises [ValueError] (reported as an invalid input); raise when
    its upgrade raises anything else. *)
Theorem pass_does_one_thing packages w line rest :
  stdin w = line :: rest ->
  exists r new,
    one_pass packages w
    = (r, add_events new (read_line (add_events (menu_events packages) w)))
    /\ pass_outcome packages r new.
Proof. apply pass_cases. Qed.

Lemma pass_outcome_calls packages r new :
  pass_outcome packages r new ->
  Forall (allowed_call packages) (runs new)
  /\ (length (runs new) <= 1)%nat
  /\ (forall l', r = Ok (Continue l') -> l' `sublist_of` packages).
Proof.
  assert (Hone : forall i p, packages !! i = Some p ->
            allowed_call packages (Run (upgrade_one_argv (id p)) false)).
  { intros i p Hp. right. exists p. split; [|reflexivity].
    apply list_elem_of_In. eapply list_elem_of_lookup_2. exact Hp. }
  intros H. destruct H; cbn [runs List.filter is_run length];
    (split; [|split; [lia|]]);
    first [ intros l' Heq; first [ discriminate Heq
                                  | injection Heq as <-;
                                    first [reflexivity | apply sublist_delete] ]
          | constructor; [first [left; reflexivity | eapply Hone; eassumption]
                         | constructor]
          | constructor ].
Qed.

Lemma allowed_call_sublist l' packages e :
  l' `sublist_of` packages -> allowed_call l' e -> allowed_call packages e.
Proof.
  intros Hsub [-> | (p & Hp & ->)]; [left; reflexivity|].
  right. exists p. split; [|reflexivity].
  apply list_elem_of_In. eapply elem_of_sublist; [|exact Hsub].
  apply list_elem_of_In. exact Hp.
Qed.

(** What the loop adds to the trace: only allowed calls, and no more calls
    than lines read. *)
Lemma loop_calls fuel : forall packages w,
  exists new,
    events (snd (the_loop fuel packages w)) = events w ++ new
    /\ Forall (allowed_call packages) (runs new)
    /\ (length (runs new) + length (stdin (snd (the_loop fuel packages w)))
        <= length (stdin w))%nat.
Proof.
  induction fuel as [|fuel IH]; intros packages w.
  - exists []. cbn. rewrite app_nil_r. repeat split; [constructor | lia].
  - cbn [selection_loop]. unfold bind.
    destruct (stdin w) as [|line rest] eqn:Hin.
    + unfold loop_body. rewrite (listing_eof _ _ _ Hin).
      exists (menu_events packages). cbn [snd events stdin add_events].
      rewrite runs_menu, Hin. repeat split; [constructor | cbn; lia].
    + destruct (pass_cases packages w line rest Hin) as (r & new & -> & Hout).
      destruct (pass_outcome_calls _ _ _ Hout) as (Hallowed & Hone & Hsub).
      set (w1 := add_events new (read_line (add_events (menu_events packages) w))).
      assert (Hevents : events w1 = events w ++ menu_events packages ++ new)
        by (subst w1; cbn [events add_events read_line]; rewrite app_assoc; reflexivity).
      assert (Hstdin : stdin w1 = rest)
        by (subst w1; cbn [stdin add_events read_line]; rewrite Hin; reflexivity).
      assert (Hruns : runs (menu_events packages ++ new) = runs new)
        by (rewrite runs_app, runs_menu; reflexivity).
      destruct r as [[|l']|e]; cbv beta iota; unfold ret.
      * exists (menu_events packages ++ new). cbn [snd].
        rewrite Hevents, Hruns, Hstdin. repeat split; [exact Hallowed | cbn; lia].
      * destruct (IH l' w1) as (new2 & Hev2 & Hall2 & Hlen2).
        exists (menu_events packages ++ new ++ new2).
        rewrite Hev2, Hevents, <- !app_assoc. split; [reflexivity|].
        rewrite app_assoc, runs_app, Hruns. split.
        -- apply Forall_app. split; [exact Hallowed|].
           eapply Forall_impl; [exact Hall2|].
           intros e. apply allowed_call_sublist. apply Hsub. reflexivity.
        -- rewrite length_app. rewrite Hstdin in Hlen2. cbn [length]. lia.
      * exists (menu_events packages ++ new). cbn [snd].
        rewrite Hevents, Hruns, Hstdin. repeat split; [exact Hallowed | cbn; lia].
Qed.

(** X8.  Whatever the user types and whatever the tool does, every call of
    the selection loop is [winget upgrade --all --accept-package-agreements
    --accept-source-agreements] or [winget upgrade --id <id>
    --accept-package-agreements --accept-source-agreements] with the id of a
    candidate of the list it was given, none of them captures the output, and
    the loop makes no more calls than it reads lines. *)
Theorem loop_calls_only_listed fuel packages w :
  exists new,
    events (snd (selection_loop to_decimal int_max_str_digits fuel packages w))
      = events w ++ new
    /\ Forall (fun e =>
                 e = Run [lit "winget"; lit "upgrade"; lit "--all";
                          lit "--accept-package-agreements";
                          lit "--accept-source-agreements"] false
                 \/ exists p, In p packages
                      /\ e = Run [lit "winget"; lit "upgrade"; lit "--id"; id p;
                                  lit "--accept-package-agreements";
                                  lit "--accept-source-agreements"] false)
         (runs new)
    /\ (length (runs new)
          + length (stdin (snd (selection_loop to_decimal int_max_str_digits
                                  fuel packages w)))
        <= length (stdin w))%nat.
Proof. exact (loop_calls fuel packages w). Qed.

(** The run on Windows, up to its first call. *)
Lemma run_on_windows fuel w :
  platform_system w = lit "Windows" ->
  the_run fuel w
  = try_except
      (fun w1 =>
         match external_tool w (length (runs (events w))) list_upgrades_argv with
         | Completed result =>
             (let packages_to_upgrade := parse_winget_output (stdout result) in
              if negb (truthy_list packages_to_upgrade) then
                bind (print (NL :: msg_rule52)) (fun _ =>
                bind (print (lit "Winget reported: No package upgrades are currently available.")) (fun _ =>
                bind (print msg_rule52) (fun _ => ret (Some tt))))
              else
                bind (if truthy (stderr result)
                         && negb (contains (stderr result) (lit "No package found matching input"))
                      then print (NL :: lit "[Warning/Error from winget check]:" ++ NL :: strip (stderr result))
                      else ret tt)
                  (fun _ => the_loop fuel packages_to_upgrade))
               (add_events [Run list_upgrades_argv true] w1)
         | Raised e => (Raise e, add_events [Run list_upgrades_argv true] w1)
         end)
      (fun e =>
         match e with
         | FileNotFoundError =>
             bind (print (NL :: lit "ERROR: 'winget' command not found. Ensure winget is installed and in your system PATH.")) (fun _ =>
             bind (print (lit "Winget is usually included with modern versions of Windows 10/11.")) (fun _ =>
             ret (Some tt)))
         | ValueError msg | OtherException msg =>
             bind (print (NL :: lit "An unexpected error occurred: " ++ msg)) (fun _ =>
             ret (Some tt))
         | KeyboardInterrupt => raise e
         end)
      (add_events [Print msg_running] w).
Proof.
  intros Hwin. unfold run_winget_upgrade_manager, platform_system_.
  unfold bind at 1. rewrite Hwin.
  change (negb (str_eqb (lit "Windows") (lit "Windows"))) with false. cbv iota.
  rewrite print_run_bind. unfold try_except.
  unfold bind at 1, subprocess_run.
  cbn [external_tool events add_events].
  rewrite runs_app, app_nil_r.
  destruct (external_tool w (length (runs (events w))) _); reflexivity.
Qed.

(** X9.  A report without candidates (no separator line, or no valid row
    after it) ends the run at once: the listing call is the only call, the
    user is told that nothing is to upgrade and is asked nothing, whatever
    the exit status and the error output of the call. *)
Theorem empty_report_ends_run fuel w result :
  platform_system w = lit "Windows" ->
  external_tool w (length (runs (events w))) list_upgrades_argv = Completed result ->
  parse_winget_output (stdout result) = [] ->
  the_run fuel w
  = (Ok (Some tt),
     add_events [Print msg_running; Run list_upgrades_argv true;
                 Print (NL :: msg_rule52); Print msg_no_upgrades; Print msg_rule52] w).
Proof.
  intros Hwin Htool Hparse. rewrite (run_on_windows fuel w Hwin).
  unfold try_except. rewrite Htool. cbv zeta. rewrite Hparse.
  cbn [truthy_list negb]. rewrite !print_run_bind. unfold ret.
  rewrite !add_events_app. reflexivity.
Qed.

(** X10.  When the listing call raises, the run ends there without reading
    a line: a missing executable is reported in two lines, any other
    exception with its message, and the run returns normally; only a
    keyboard interrupt goes through. *)
Theorem failed_listing_ends_run fuel w e :
  platform_system w = lit "Windows" ->
  external_tool w (length (runs (events w))) list_upgrades_argv = Raised e ->
  let w1 := add_events [Print msg_running; Run list_upgrades_argv true] w in
  the_run fuel w
  = match e with
    | FileNotFoundError => (Ok (Some tt), add_events (map Print msg_not_found) w1)
    | ValueError msg | OtherException msg =>
        (Ok (Some tt), add_events [Print (msg_unexpected msg)] w1)
    | KeyboardInterrupt => (Raise KeyboardInterrupt, w1)
    end.
Proof.
  intros Hwin Htool w1. rewrite (run_on_windows fuel w Hwin).
  unfold try_except. rewrite Htool. subst w1.
  destruct e; rewrite ?print_run_bind; unfold ret, raise;
    rewrite !add_events_app; reflexivity.
Qed.

Lemma try_except_catches {A} (m : M A) (handler : exn -> M A) w :
  (forall e w', (exists o, fst (handler e w') = Ok o)
                \/ fst (handler e w') = Raise KeyboardInterrupt) ->
  (exists o, fst (try_except m handler w) = Ok o)
  \/ fst (try_except m handler w) = Raise KeyboardInterrupt.
Proof.
  intros Hh. unfold try_except. destruct (m w) as [[o|e] w2].
  - left. exists o. reflexivity.
  - apply Hh.
Qed.

(** A run never ends with an exception other than a keyboard interrupt. *)
Lemma run_catches_exceptions fuel w :
  (exists o, fst (the_run fuel w) = Ok o)
  \/ fst (the_run fuel w) = Raise KeyboardInterrupt.
Proof.
  destruct (str_eqb (platform_system w) (lit "Windows")) eqn:Hwin.
  - apply str_eqb_eq in Hwin. rewrite (run_on_windows fuel w Hwin).
    apply try_except_catches. intros e w'.
    destruct e; [left; eexists; reflexivity .. | right; reflexivity].
  - left. unfold run_winget_upgrade_manager, platform_system_.
    unfold bind at 1. rewrite Hwin. eexists. reflexivity.
Qed.

(** X11.  With more passes allowed than there are lines to read, a run
    always ends, and it ends by returning normally unless a keyboard
    interrupt was raised: every other exception, of the tool or of the
    console, is caught and reported. *)
Theorem loop_run_ends_normally fuel w :
  (length (stdin w) < fuel)%nat ->
  fst (run_winget_upgrade_manager to_decimal int_max_str_digits fuel w) = Ok (Some tt)
  \/ fst (run_winget_upgrade_manager to_decimal int_max_str_digits fuel w)
     = Raise KeyboardInterrupt.
Proof.
  intros Hfuel.
  pose proof (run_terminates to_decimal int_max_str_digits fuel w Hfuel) as Hend.
  destruct (run_catches_exceptions fuel w) as [[o Ho] | Hk]; [|right; exact Hk].
  left. rewrite Ho in *. destruct o as [u|]; [destruct u; reflexivity | congruence].
Qed.

Lemma try_except_prints {A} (m : M A) (handler : exn -> M A) w :
  (forall e w', exists prints, snd (handler e w') = add_events (map Print prints) w') ->
  exists prints, snd (try_except m handler w) = add_events (map Print prints) (snd (m w)).
Proof.
  intros Hh. unfold try_except. destruct (m w) as [[o|e] w2]; cbn [snd].
  - exists []. rewrite add_events_nil. reflexivity.
  - apply Hh.
Qed.

(** The calls of a whole run: the call that lists the upgrades, then calls
    the selection loop may make on what the parser read. *)
Lemma whole_run_calls fuel w :
  exists new,
    events (snd (the_run fuel w)) = events w ++ new
    /\ (runs new = []
        \/ exists rest,
             runs new = Run list_upgrades_argv true :: rest
             /\ Forall (allowed_call
                   match external_tool w (length (runs (events w))) list_upgrades_argv with
                   | Completed result => parse_winget_output (stdout result)
                   | Raised _ => []
                   end) rest
             /\ (length rest + length (stdin (snd (the_run fuel w)))
                 <= length (stdin w))%nat).
Proof.
  destruct (str_eqb (platform_system w) (lit "Windows")) eqn:Hwin.
  2:{ exists [Print msg_not_windows]. split; [|left; reflexivity].
      unfold run_winget_upgrade_manager, platform_system_.
      unfold bind at 1. rewrite Hwin. reflexivity. }
  apply str_eqb_eq in Hwin. rewrite (run_on_windows fuel w Hwin).
  match goal with |- context [try_except ?m ?h ?w1] =>
    destruct (try_except_prints m h w1) as [prints Hprints]
  end.
  { intros e w'. destruct e.
    - eexists [_]. reflexivity.
    - eexists [_; _]. rewrite !print_run_bind. unfold ret. cbn [snd].
      rewrite add_events_app. reflexivity.
    - eexists [_]. reflexivity.
    - exists []. cbn [map]. rewrite add_events_nil. reflexivity. }
  rewrite Hprints. clear Hprints. cbv beta.
  destruct (external_tool w (length (runs (events w))) list_upgrades_argv)
    as [result|e].
  2:{ exists ([Print msg_running; Run list_upgrades_argv true] ++ map Print prints).
      cbn [snd events stdin add_events]. split.
      - rewrite <- !app_assoc. reflexivity.
      - right. exists []. rewrite runs_app, runs_prints.
        repeat split; [constructor | cbn; lia]. }
  cbv zeta.
  destruct (truthy_list (parse_winget_output (stdout result))) eqn:Hlist; cbn [negb].
  2:{ exists ([Print msg_running; Run list_upgrades_argv true;
               Print (NL :: msg_rule52); Print msg_no_upgrades; Print msg_rule52]
              ++ map Print prints).
      rewrite !print_run_bind. unfold ret. cbn [snd events stdin add_events]. split.
      - rewrite <- !app_assoc. reflexivity.
      - right. exists []. rewrite runs_app, runs_prints.
        repeat split; [constructor | cbn; lia]. }
  match goal with |- context [bind ?warn _ ?w2] =>
    assert (Hwarn : exists texts, warn w2 = (Ok tt, add_events (map Print texts) w2))
  end.
  { destruct (truthy (stderr result) && _).
    - eexists [_]. reflexivity.
    - exists []. cbn [map]. rewrite add_events_nil. reflexivity. }
  destruct Hwarn as [texts Hwarn]. erewrite bind_ok by exact Hwarn.
  destruct (loop_calls fuel (parse_winget_output (stdout result))
              (add_events (map Print texts)
                 (add_events [Run list_upgrades_argv true]
                    (add_events [Print msg_running] w))))
    as (new & Hev & Hall & Hlen).
  exists ([Print msg_running; Run list_upgrades_argv true] ++ map Print texts
          ++ new ++ map Print prints).
  cbn [snd events stdin add_events] in *. split.
  - rewrite Hev, <- !app_assoc. reflexivity.
  - right. exists (runs new).
    rewrite (runs_app [_; _]), !runs_app, !runs_prints, app_nil_r.
    repeat split; [exact Hall | exact Hlen].
Qed.

(** X12.  The calls of a whole run: first [winget upgrade], with its output
    captured, and after it only [winget upgrade --all
    --accept-package-agreements --accept-source-agreements] or [winget upgrade
    --id <id> --accept-package-agreements --accept-source-agreements] with an
    id that the parser read in the output of that first call, none of them
    capturing the output, and never more of them than lines were read.  (On
    another platform nothing is called.) *)
Theorem run_calls_only_listed fuel w :
  exists new,
    events (snd (run_winget_upgrade_manager to_decimal int_max_str_digits fuel w))
      = events w ++ new
    /\ (runs new = []
        \/ exists rest,
             runs new = Run [lit "winget"; lit "upgrade"] true :: rest
             /\ Forall (fun e =>
                   e = Run [lit "winget"; lit "upgrade"; lit "--all";
                            lit "--accept-package-agreements";
                            lit "--accept-source-agreements"] false
                   \/ exists p,
                        In p match external_tool w (length (runs (events w)))
                                     [lit "winget"; lit "upgrade"] with
                             | Completed result => parse_winget_output (stdout result)
                             | Raised _ => []
                             end
                        /\ e = Run [lit "winget"; lit "upgrade"; lit "--id"; id p;
                                    lit "--accept-package-agreements";
                                    lit "--accept-source-agreements"] false)
                  rest
             /\ (length rest
                   + length (stdin (snd (run_winget_upgrade_manager
                                           to_decimal int_max_str_digits fuel w)))
                 <= length (stdin w))%nat).
Proof. exact (whole_run_calls fuel w). Qed.

(** X13.  When the standard input is at its end as the loop asks for a
    choice, the run prints the list once, reports the end of file as an
    unexpected error and returns; nothing is upgraded. *)
Theorem end_of_input_ends_run fuel w result :
  platform_system w = lit "Windows" ->
  external_tool w (length (runs (events w))) list_upgrades_argv = Completed result ->
  parse_winget_output (stdout result) <> [] ->
  stdin w = [] ->
  the_run (S fuel) w
  = (Ok (Some tt),
     add_events ([Print msg_running; Run list_upgrades_argv true]
                 ++ stderr_warning result
                 ++ menu_events (parse_winget_output (stdout result))
                 ++ [Print (msg_unexpected (lit "EOF when reading a line"))]) w).
Proof.
  intros Hwin Htool Hparse Hin. rewrite (run_on_windows (S fuel) w Hwin).
  unfold try_except. rewrite Htool. cbv zeta.
  destruct (parse_winget_output (stdout result)) as [|pkg pkgs] eqn:Hp; [congruence|].
  cbn [truthy_list negb]. unfold stderr_warning.
  destruct (truthy (stderr result) && _).
  - rewrite print_run_bind. cbn [selection_loop]. unfold bind at 1. unfold loop_body.
    rewrite listing_eof by exact Hin.
    rewrite print_run_bind. unfold ret. rewrite !add_events_app.
    rewrite <- ?app_assoc. reflexivity.
  - unfold bind at 1. unfold ret at 1.
    cbn [selection_loop]. unfold bind at 1. unfold loop_body.
    rewrite listing_eof by exact Hin.
    rewrite print_run_bind. unfold ret. rewrite !add_events_app.
    rewrite <- ?app_assoc. reflexivity.
Qed.

End Passes.

(** ** The confirmation loop of [WingetBasic] *)

Lemma consumed_read_line es1 es2 w line rest :
  stdin w = line :: rest ->
  add_events es2 (read_line (add_events es1 w)) = consumed rest (es1 ++ es2) w.
Proof.
  intros Hin. unfold add_events, read_line, consumed. cbn.
  rewrite Hin, <- app_assoc. reflexivity.
Qed.

Lemma add_events_consumed es2 rest es1 w :
  add_events es2 (consumed rest es1 w) = consumed rest (es1 ++ es2) w.
Proof. unfold add_events, consumed. cbn. rewrite <- app_assoc. reflexivity. Qed.

Lemma consumed_consumed rest2 es2 rest1 es1 w :
  consumed rest2 es2 (consumed rest1 es1 w) = consumed rest2 (es1 ++ es2) w.
Proof. unfold consumed. cbn. rewrite <- app_assoc. reflexivity. Qed.

Lemma confirm_pass_eof w :
  stdin w = [] ->
  WingetBasic.confirm_pass w
  = (Raise (OtherException (lit "EOF when reading a line")),
     add_events [Input WingetBasic.msg_prompt] w).
Proof.
  intros Hin. unfold WingetBasic.confirm_pass, bind at 1, input. rewrite Hin.
  reflexivity.
Qed.

Lemma confirm_pass_after_line w line rest :
  stdin w = line :: rest ->
  WingetBasic.confirm_pass w
  = (let user_input := lower (strip line) in
     if WingetBasic.str_in user_input [lit "yes"; lit "y"] then
       bind (print msg_all_start) (fun _ =>
       bind (subprocess_run upgrade_all_argv false) (fun _ =>
       bind (print msg_all_finished) (fun _ => ret true)))
     else if WingetBasic.str_in user_input [lit "no"; lit "n"] then
       bind (print WingetBasic.msg_canceled) (fun _ => ret true)
     else
       bind (print WingetBasic.msg_invalid) (fun _ => ret false))
    (consumed rest [Input WingetBasic.msg_prompt] w).
Proof.
  intros Hin. unfold WingetBasic.confirm_pass, bind at 1, input. rewrite Hin.
  f_equal. unfold emit. rewrite <- (add_events_nil (read_line _)).
  rewrite (consumed_read_line _ _ _ _ _ Hin), app_nil_r. reflexivity.
Qed.

Lemma confirm_pass_cases w line rest :
  stdin w = line :: rest ->
  exists r new,
    WingetBasic.confirm_pass w
    = (r, consumed rest (Input WingetBasic.msg_prompt :: new) w)
    /\ confirm_outcome r new.
Proof.
  intros Hin. rewrite (confirm_pass_after_line w line rest Hin). cbv zeta.
  destruct (WingetBasic.str_in _ [lit "yes"; lit "y"]).
  - rewrite print_run_bind. unfold bind at 1, subprocess_run.
    destruct (external_tool _ _ _) as [p|e].
    + eexists _, _. split; [|apply confirm_yes].
      rewrite print_run_bind. unfold ret, emit.
      rewrite !add_events_app, add_events_consumed. reflexivity.
    + eexists _, _. split; [|apply confirm_yes_raised].
      unfold emit. rewrite !add_events_app, add_events_consumed. reflexivity.
  - destruct (WingetBasic.str_in _ [lit "no"; lit "n"]).
    + eexists _, _. split; [|apply confirm_no].
      rewrite print_run_bind. unfold ret. rewrite add_events_consumed. reflexivity.
    + eexists _, _. split; [|apply confirm_unknown].
      rewrite print_run_bind. unfold ret. rewrite add_events_consumed. reflexivity.
Qed.

Lemma unknown_answer_tests line :
  WingetBasic.unknown_answer line = true ->
  WingetBasic.str_in (lower (strip line)) [lit "yes"; lit "y"] = false
  /\ WingetBasic.str_in (lower (strip line)) [lit "no"; lit "n"] = false.
Proof.
  unfold WingetBasic.unknown_answer, WingetBasic.str_in. cbn [existsb].
  destruct (str_eqb _ (lit "yes")), (str_eqb _ (lit "y")),
    (str_eqb _ (lit "no")), (str_eqb _ (lit "n")); cbn; intros H;
    try discriminate; split; reflexivity.
Qed.

Lemma consumed_nothing w : consumed (stdin w) [] w = w.
Proof. destruct w. unfold consumed. cbn. rewrite app_nil_r. reflexivity. Qed.

Lemma runs_rejected lines : runs (WingetBasic.rejected_events lines) = [].
Proof. induction lines as [|l lines IH]; [reflexivity | exact IH]. Qed.

(** The passes that read answers the loop does not know only print that the
    input is invalid and ask again. *)
Lemma confirm_loop_rejects bads : forall fuel w rest,
  Forall (fun l => WingetBasic.unknown_answer l = true) bads ->
  stdin w = bads ++ rest ->
  WingetBasic.confirm_loop (length bads + fuel) w
  = WingetBasic.confirm_loop fuel (consumed rest (WingetBasic.rejected_events bads) w).
Proof.
  induction bads as [|b bads IH]; intros fuel w rest Hbad Hin.
  - cbn in Hin. cbn [length Nat.add WingetBasic.rejected_events flat_map].
    rewrite <- Hin, consumed_nothing. reflexivity.
  - inversion Hbad as [|? ? Hb Hbads]; subst.
    destruct (unknown_answer_tests b Hb) as [Hyes Hno].
    cbn [length Nat.add WingetBasic.confirm_loop].
    unfold bind at 1.
    rewrite (confirm_pass_after_line w b (bads ++ rest) Hin). cbv zeta.
    rewrite Hyes, Hno, print_run_bind. unfold ret at 1.
    rewrite add_events_consumed.
    rewrite (IH fuel (consumed (bads ++ rest) _ w) rest Hbads eq_refl).
    rewrite consumed_consumed. reflexivity.
Qed.

Lemma known_answers u :
  (u = lit "yes" \/ u = lit "y" -> WingetBasic.str_in u [lit "yes"; lit "y"] = true)
  /\ (u = lit "no" \/ u = lit "n" ->
      WingetBasic.str_in u [lit "yes"; lit "y"] = false
      /\ WingetBasic.str_in u [lit "no"; lit "n"] = true).
Proof.
  split; intros [-> | ->]; try split; reflexivity.
Qed.

(** X14.  In [WingetBasic] the first answer that is [yes], [y], [no] or [n]
    (in any case, with any whitespace around it) decides; every line before
    it only gets the message that the input is invalid and a new prompt.
    After [yes] or [y] the tool is called once, as [winget upgrade --all
    --accept-package-agreements --accept-source-agreements] without capture
    of its output, and the loop ends whatever the call returns or raises;
    after [no] or [n] nothing is called.  The lines after the answer are not
    read. *)
Theorem first_known_answer_decides w bads ans rest fuel :
  let argv := [lit "winget"; lit "upgrade"; lit "--all";
               lit "--accept-package-agreements"; lit "--accept-source-agreements"] in
  stdin w = bads ++ ans :: rest ->
  Forall (fun l => WingetBasic.unknown_answer l = true) bads ->
  (length bads < fuel)%nat ->
  let asked := WingetBasic.rejected_events bads ++ [Input WingetBasic.msg_prompt] in
  (lower (strip ans) = lit "yes" \/ lower (strip ans) = lit "y" ->
   WingetBasic.confirm_loop fuel w
   = match external_tool w (length (runs (events w))) argv with
     | Completed _ =>
         (Ok (Some tt),
          consumed rest
            (asked ++ [Print msg_all_start; Run argv false; Print msg_all_finished]) w)
     | Raised e =>
         (Raise e,
          consumed rest (asked ++ [Print msg_all_start; Run argv false]) w)
     end)
  /\ (lower (strip ans) = lit "no" \/ lower (strip ans) = lit "n" ->
      WingetBasic.confirm_loop fuel w
      = (Ok (Some tt), consumed rest (asked ++ [Print WingetBasic.msg_canceled]) w)).
Proof.
  intros argv. change argv with upgrade_all_argv. clear argv.
  intros Hin Hbad Hfuel asked.
  replace fuel with (length bads + S (fuel - length bads - 1))%nat by lia.
  rewrite (confirm_loop_rejects bads _ w (ans :: rest) Hbad Hin).
  cbn [WingetBasic.confirm_loop].
  pose proof (confirm_pass_after_line
                (consumed (ans :: rest) (WingetBasic.rejected_events bads) w)
                ans rest eq_refl) as Hpass.
  cbv zeta in Hpass. rewrite consumed_consumed in Hpass. fold asked in Hpass.
  destruct (known_answers (lower (strip ans))) as [Hyes Hno].
  split; intros Hans.
  - rewrite (Hyes Hans), print_run_bind in Hpass.
    unfold bind at 1, subprocess_run in Hpass.
    cbn [external_tool events consumed add_events] in Hpass.
    subst asked. rewrite !runs_app, runs_rejected, !app_nil_r in Hpass.
    cbn [app] in Hpass.
    destruct (external_tool w (length (runs (events w))) upgrade_all_argv).
    + rewrite print_run_bind in Hpass. unfold ret, emit in Hpass.
      rewrite !add_events_app, add_events_consumed in Hpass.
      erewrite bind_ok by exact Hpass. reflexivity.
    + unfold emit in Hpass. rewrite !add_events_app, add_events_consumed in Hpass.
      erewrite bind_raise by exact Hpass. reflexivity.
  - destruct (Hno Hans) as [Hy Hn]. rewrite Hy, Hn, print_run_bind in Hpass.
    unfold ret in Hpass. rewrite add_events_consumed in Hpass.
    erewrite bind_ok by exact Hpass. reflexivity.
Qed.

(** ** The run of [WingetBasic] *)

Lemma startswith_app needle rest : startswith (needle ++ rest) needle = true.
Proof.
  induction needle as [|c needle IH]; [destruct rest; reflexivity|].
  cbn. rewrite N.eqb_refl. exact IH.
Qed.

(** [needle in hay] holds when [needle] stands somewhere in [hay]. *)
Lemma contains_app before needle after :
  contains (before ++ needle ++ after) needle = true.
Proof.
  induction before as [|c before IH]; cbn [app].
  - destruct (needle ++ after) eqn:E; cbn [contains];
      rewrite <- E, startswith_app; reflexivity.
  - cbn [contains]. rewrite IH. apply orb_true_r.
Qed.

Lemma contains_inv hay needle :
  contains hay needle = true -> exists before after, hay = before ++ needle ++ after.
Proof.
  assert (Hstart : forall s p, startswith s p = true -> exists after, s = p ++ after).
  { intros s p. revert s. induction p as [|c p IH]; intros s H.
    - exists s. reflexivity.
    - destruct s as [|d s]; [discriminate|]. cbn in H.
      apply andb_prop in H as [Hc Hp]. apply N.eqb_eq in Hc. subst d.
      destruct (IH s Hp) as [after ->]. exists after. reflexivity. }
  induction hay as [|c hay IH]; cbn [contains]; intros H.
  - rewrite orb_false_r in H. destruct (Hstart _ _ H) as [after ->].
    exists [], after. reflexivity.
  - apply orb_prop in H as [H | H].
    + destruct (Hstart _ _ H) as [after ->]. exists [], after. reflexivity.
    + destruct (IH H) as (before & after & ->). exists (c :: before), after.
      reflexivity.
Qed.

(** The run of [WingetBasic] on Windows, up to its first call. *)
Lemma basic_run_on_windows fuel w :
  platform_system w = lit "Windows" ->
  WingetBasic.run_winget_upgrade_manager fuel w
  = try_except
      (fun w1 =>
         match external_tool w (length (runs (events w))) list_upgrades_argv with
         | Completed result =>
             bind (if truthy (stdout result) then print (strip (stdout result)) else ret tt)
               (fun _ =>
                  if contains (stdout result) (lit "No upgrades available") then
                    bind (print (NL :: msg_rule52)) (fun _ =>
                    bind (print msg_no_upgrades) (fun _ =>
                    bind (print msg_rule52) (fun _ => ret (Some tt))))
                  else
                    bind (if truthy (stderr result)
                             && negb (contains (stderr result) (lit "No package found matching input"))
                          then print (NL :: lit "[Warning/Error from winget check]:" ++ NL :: strip (stderr result))
                          else ret tt) (fun _ =>
                    bind (print (NL :: str_mul (lit "=") 70)) (fun _ =>
                    bind (print (lit "Do you want to proceed with installing ALL the listed upgrades?")) (fun _ =>
                    bind (print (lit "This will execute 'winget upgrade --all'.")) (fun _ =>
                    bind (print (str_mul (lit "=") 70)) (fun _ =>
                    WingetBasic.confirm_loop fuel))))))
               (add_events [Run list_upgrades_argv true] w1)
         | Raised e => (Raise e, add_events [Run list_upgrades_argv true] w1)
         end)
      (fun e =>
         match e with
         | FileNotFoundError =>
             bind (print (NL :: lit "ERROR: 'winget' command not found. Ensure winget is installed and in your system PATH.")) (fun _ =>
             bind (print (lit "Winget is usually included with modern versions of Windows 10/11.")) (fun _ =>
             ret (Some tt)))
         | ValueError msg | OtherException msg =>
             bind (print (NL :: lit "An unexpected error occurred: " ++ msg)) (fun _ =>
             ret (Some tt))
         | KeyboardInterrupt => raise e
         end)
      (add_events [Print msg_running] w).
Proof.
  intros Hwin. unfold WingetBasic.run_winget_upgrade_manager, platform_system_.
  unfold bind at 1. rewrite Hwin.
  change (negb (str_eqb (lit "Windows") (lit "Windows"))) with false. cbv iota.
  rewrite print_run_bind. unfold try_except.
  unfold bind at 1, subprocess_run.
  cbn [external_tool events add_events].
  rewrite runs_app, app_nil_r.
  destruct (external_tool w (length (runs (events w))) _); reflexivity.
Qed.

(** X15.  [WingetBasic] asks nothing when the output of the listing call
    holds the words [No upgrades available], wherever they stand: it shows
    the output, says that nothing is to upgrade and returns after that one
    call, without reading a line. *)
Theorem no_upgrades_words_end_run fuel w result before after :
  platform_system w = lit "Windows" ->
  external_tool w (length (runs (events w))) list_upgrades_argv = Completed result ->
  stdout result = before ++ lit "No upgrades available" ++ after ->
  WingetBasic.run_winget_upgrade_manager fuel w
  = (Ok (Some tt),
     add_events [Print msg_running; Run list_upgrades_argv true;
                 Print (strip (stdout result));
                 Print (NL :: msg_rule52); Print msg_no_upgrades; Print msg_rule52] w).
Proof.
  intros Hwin Htool Hout. rewrite (basic_run_on_windows fuel w Hwin).
  unfold try_except. rewrite Htool.
  assert (Hcontains : contains (stdout result) (lit "No upgrades available") = true)
    by (rewrite Hout; apply contains_app).
  assert (Htruthy : truthy (stdout result) = true).
  { rewrite Hout. destruct before; reflexivity. }
  rewrite Hcontains, Htruthy. rewrite !print_run_bind. unfold ret.
  rewrite !add_events_app. reflexivity.
Qed.

Lemma confirm_loop_calls fuel : forall w,
  exists new,
    events (snd (WingetBasic.confirm_loop fuel w)) = events w ++ new
    /\ (runs new = [] \/ runs new = [Run upgrade_all_argv false])
    /\ ((length (stdin w) < fuel)%nat ->
        fst (WingetBasic.confirm_loop fuel w) <> Ok None).
Proof.
  induction fuel as [|fuel IH]; intros w.
  - exists []. cbn. rewrite app_nil_r. repeat split; [left; reflexivity | lia].
  - cbn [WingetBasic.confirm_loop]. unfold bind.
    destruct (stdin w) as [|line rest] eqn:Hin.
    + rewrite (confirm_pass_eof w Hin). exists [Input WingetBasic.msg_prompt].
      repeat split; [left; reflexivity | discriminate].
    + destruct (confirm_pass_cases w line rest Hin) as (r & new & -> & Hout).
      destruct Hout; cbv beta iota; unfold ret.
      * eexists. repeat split; [right; reflexivity | discriminate].
      * eexists. repeat split; [right; reflexivity | discriminate].
      * eexists. repeat split; [left; reflexivity | discriminate].
      * destruct (IH (consumed rest [Input WingetBasic.msg_prompt;
                                     Print WingetBasic.msg_invalid] w))
          as (new2 & Hev & Hruns & Hend).
        exists ([Input WingetBasic.msg_prompt; Print WingetBasic.msg_invalid] ++ new2).
        rewrite Hev. cbn [events stdin consumed] in *. split; [|split].
        -- rewrite <- app_assoc. reflexivity.
        -- rewrite runs_app. exact Hruns.
        -- intros Hlen. apply Hend. cbn [length] in Hlen. lia.
Qed.

(** The calls of a run of [WingetBasic]. *)
Lemma basic_calls fuel w :
  exists new,
    events (snd (WingetBasic.run_winget_upgrade_manager fuel w)) = events w ++ new
    /\ (runs new = []
        \/ runs new = [Run list_upgrades_argv true]
        \/ runs new = [Run list_upgrades_argv true; Run upgrade_all_argv false]).
Proof.
  destruct (str_eqb (platform_system w) (lit "Windows")) eqn:Hwin.
  2:{ exists [Print msg_not_windows]. split; [|left; reflexivity].
      unfold WingetBasic.run_winget_upgrade_manager, platform_system_.
      unfold bind at 1. rewrite Hwin. reflexivity. }
  apply str_eqb_eq in Hwin. rewrite (basic_run_on_windows fuel w Hwin).
  match goal with |- context [try_except ?m ?h ?w1] =>
    destruct (try_except_prints m h w1) as [prints Hprints]
  end.
  { intros e w'. destruct e.
    - eexists [_]. reflexivity.
    - eexists [_; _]. rewrite !print_run_bind. unfold ret. cbn [snd].
      rewrite add_events_app. reflexivity.
    - eexists [_]. reflexivity.
    - exists []. cbn [map]. rewrite add_events_nil. reflexivity. }
  rewrite Hprints. clear Hprints. cbv beta.
  destruct (external_tool w (length (runs (events w))) list_upgrades_argv)
    as [result|e].
  2:{ exists ([Print msg_running; Run list_upgrades_argv true] ++ map Print prints).
      cbn [snd events add_events]. split.
      - rewrite <- !app_assoc. reflexivity.
      - right. left. rewrite runs_app, runs_prints. reflexivity. }
  match goal with |- context [bind ?shown _ ?w2] =>
    assert (Hshown : exists texts, shown w2 = (Ok tt, add_events (map Print texts) w2))
  end.
  { destruct (truthy (stdout result)).
    - eexists [_]. reflexivity.
    - exists []. cbn [map]. rewrite add_events_nil. reflexivity. }
  destruct Hshown as [shown Hshown]. erewrite bind_ok by exact Hshown.
  destruct (contains (stdout result) (lit "No upgrades available")).
  { exists ([Print msg_running; Run list_upgrades_argv true] ++ map Print shown
            ++ [Print (NL :: msg_rule52); Print msg_no_upgrades; Print msg_rule52]
            ++ map Print prints).
    rewrite !print_run_bind. unfold ret. cbn [snd events add_events]. split.
    - rewrite <- !app_assoc. reflexivity.
    - right. left. rewrite (runs_app [_; _]), !runs_app, !runs_prints. reflexivity. }
  match goal with |- context [bind ?warn _ ?w3] =>
    assert (Hwarn : exists texts, warn w3 = (Ok tt, add_events (map Print texts) w3))
  end.
  { destruct (truthy (stderr result) && _).
    - eexists [_]. reflexivity.
    - exists []. cbn [map]. rewrite add_events_nil. reflexivity. }
  destruct Hwarn as [warned Hwarn]. erewrite bind_ok by exact Hwarn.
  rewrite !print_run_bind.
  match goal with |- context [WingetBasic.confirm_loop fuel ?w4] =>
    destruct (confirm_loop_calls fuel w4) as (new & Hev & Hruns & _)
  end.
  exists ([Print msg_running; Run list_upgrades_argv true] ++ map Print shown
          ++ map Print warned ++ map Print WingetBasic.msg_question
          ++ new ++ map Print prints).
  cbn [snd events add_events] in *. split.
  - rewrite Hev, <- !app_assoc. reflexivity.
  - right. rewrite (runs_app [_; _]), !runs_app, !runs_prints, app_nil_r.
    cbn [app]. destruct Hruns as [-> | ->]; [left | right]; reflexivity.
Qed.

(** X16.  Whatever the user types and whatever the tool does, a run of
    [WingetBasic] makes at most two calls: [winget upgrade] with its output
    captured and then, at most once, [winget upgrade --all
    --accept-package-agreements --accept-source-agreements] without
    capture. *)
Theorem basic_run_calls fuel w :
  exists new,
    events (snd (WingetBasic.run_winget_upgrade_manager fuel w)) = events w ++ new
    /\ (runs new = []
        \/ runs new = [Run [lit "winget"; lit "upgrade"] true]
        \/ runs new = [Run [lit "winget"; lit "upgrade"] true;
                       Run [lit "winget"; lit "upgrade"; lit "--all";
                            lit "--accept-package-agreements";
                            lit "--accept-source-agreements"] false]).
Proof. exact (basic_calls fuel w). Qed.

(** X17.  With more passes allowed than there are lines to read, a run of
    [WingetBasic] always ends, and it returns normally unless a keyboard
    interrupt was raised: the end of the input and every failure of the tool
    are caught and reported. *)
Theorem basic_run_ends_normally fuel w :
  (length (stdin w) < fuel)%nat ->
  fst (WingetBasic.run_winget_upgrade_manager fuel w) = Ok (Some tt)
  \/ fst (WingetBasic.run_winget_upgrade_manager fuel w) = Raise KeyboardInterrupt.
Proof.
  intros Hfuel.
  destruct (str_eqb (platform_system w) (lit "Windows")) eqn:Hwin.
  2:{ left. unfold WingetBasic.run_winget_upgrade_manager, platform_system_.
      unfold bind at 1. rewrite Hwin. reflexivity. }
  apply str_eqb_eq in Hwin. rewrite (basic_run_on_windows fuel w Hwin).
  unfold try_except.
  destruct (external_tool w (length (runs (events w))) list_upgrades_argv)
    as [result|e].
  2:{ destruct e; [left; reflexivity .. | right; reflexivity]. }
  match goal with |- context [bind ?shown _ ?w2] =>
    assert (Hshown : exists texts, shown w2 = (Ok tt, add_events (map Print texts) w2))
  end.
  { destruct (truthy (stdout result)).
    - eexists [_]. reflexivity.
    - exists []. cbn [map]. rewrite add_events_nil. reflexivity. }
  destruct Hshown as [shown Hshown]. erewrite bind_ok by exact Hshown.
  destruct (contains (stdout result) (lit "No upgrades available")).
  { left. reflexivity. }
  match goal with |- context [bind ?warn _ ?w3] =>
    assert (Hwarn : exists texts, warn w3 = (Ok tt, add_events (map Print texts) w3))
  end.
  { destruct (truthy (stderr result) && _).
    - eexists [_]. reflexivity.
    - exists []. cbn [map]. rewrite add_events_nil. reflexivity. }
  destruct Hwarn as [warned Hwarn]. erewrite bind_ok by exact Hwarn.
  rewrite !print_run_bind.
  match goal with |- context [WingetBasic.confirm_loop fuel ?w4] =>
    destruct (confirm_loop_calls fuel w4) as (new & _ & _ & Hend);
    specialize (Hend Hfuel);
    destruct (WingetBasic.confirm_loop fuel w4) as [[o|e] w5]
  end.
  - left. cbn [fst] in *. destruct o as [u|]; [destruct u; reflexivity | congruence].
  - destruct e; [left; reflexivity .. | right; reflexivity].
Qed.

(** X18.  On a platform other than Windows both programs print one line and
    return: nothing is called and nothing is read. *)
Theorem other_platform_does_nothing to_decimal int_max_str_digits fuel w :
  platform_system w <> lit "Windows" ->
  run_winget_upgrade_manager to_decimal int_max_str_digits fuel w
  = (Ok (Some tt), add_events [Print msg_not_windows] w)
  /\ WingetBasic.run_winget_upgrade_manager fuel w
     = (Ok (Some tt), add_events [Print msg_not_windows] w).
Proof.
  intros Hwin. apply str_eqb_neq in Hwin. split.
  - unfold run_winget_upgrade_manager, platform_system_.
    unfold bind at 1. rewrite Hwin. reflexivity.
  - unfold WingetBasic.run_winget_upgrade_manager, platform_system_.
    unfold bind at 1. rewrite Hwin. reflexivity.
Qed.

(** ** A failed upgrade of one candidate *)

(** X19.  When the call that upgrades one candidate raises, the candidate
    stays in the list.  A [ValueError] of the call is caught with those of
    [int]: the pass reports an invalid input and the loop goes on with the
    same list; any other exception leaves the loop. *)
Theorem failed_upgrade_keeps_candidate to_decimal int_max_str_digits
    packages w line rest n pkg e :
  ascii_digits to_decimal ->
  stdin w = line :: rest ->
  py_int to_decimal int_max_str_digits (strip line) = Some n ->
  (1 <= n <= Z.of_nat (length packages))%Z ->
  packages !! Z.to_nat (n - 1) = Some pkg ->
  external_tool w (length (runs (events w))) (upgrade_one_argv (id pkg)) = Raised e ->
  let w1 := add_events [Print (msg_one_start pkg);
                        Run (upgrade_one_argv (id pkg)) false]
              (read_line (add_events (menu_events packages) w)) in
  loop_body to_decimal int_max_str_digits packages w
  = match e with
    | ValueError _ =>
        (Ok (Continue packages),
         add_events [Print (msg_invalid_input (length packages))] w1)
    | _ => (Raise e, w1)
    end.
Proof.
  intros Hascii Hin Hint Hrange Hpkg Htool w1.
  destruct (positive_choice_not_command to_decimal int_max_str_digits Hascii
              _ _ Hint (proj1 Hrange)) as [Hc Hzero].
  unfold loop_body. rewrite (listing_run _ _ _ _ _ Hin). cbv zeta.
  rewrite Hc, Hzero. unfold try_except, select_one, int_. rewrite Hint.
  unfold bind at 1. unfold ret at 1.
  replace ((1 <=? n) && (n <=? Z.of_nat (length packages)))%Z with true
    by (symmetry; apply andb_true_intro; split; apply Z.leb_le; lia).
  rewrite Hpkg, print_run_bind.
  erewrite bind_raise.
  2:{ apply subprocess_run_raised.
      pose proof (runs_before_call packages [msg_one_start pkg] w) as Hbefore.
      cbn [map] in Hbefore. rewrite Hbefore. exact Htool. }
  subst w1. destruct e; rewrite ?print_run_bind; unfold ret, raise;
    rewrite !add_events_app; reflexivity.
Qed.

(** ** Sample runs of the added properties *)

Lemma pass_does_one_thing_witness :
  exists r new,
    loop_body ascii_decimal 4300 [pkg_foo; pkg_baz] (sample_world [lit "x"; lit "c"] 0)
    = (r, add_events new
            (read_line (add_events (menu_events [pkg_foo; pkg_baz])
                          (sample_world [lit "x"; lit "c"] 0))))
    /\ pass_outcome [pkg_foo; pkg_baz] r new.
Proof.
  exact (pass_does_one_thing ascii_decimal 4300 [pkg_foo; pkg_baz]
           (sample_world [lit "x"; lit "c"] 0) (lit "x") [lit "c"] eq_refl).
Defined.

Lemma empty_report_ends_run_witness :
  run_winget_upgrade_manager ascii_decimal 4300 0
    (report_world [lit "1"] (lit "No installed package found."))
  = (Ok (Some tt),
     add_events [Print msg_running; Run list_upgrades_argv true;
                 Print (NL :: msg_rule52); Print msg_no_upgrades; Print msg_rule52]
       (report_world [lit "1"] (lit "No installed package found."))).
Proof.
  apply (empty_report_ends_run ascii_decimal 4300 0
           (report_world [lit "1"] (lit "No installed package found."))
           (CompletedProcess 0 (lit "No installed package found.") [])).
  - reflexivity.
  - reflexivity.
  - vm_compute. reflexivity.
Defined.

Lemma failed_listing_ends_run_witness :
  run_winget_upgrade_manager ascii_decimal 4300 3
    (raising_world [lit "1"] FileNotFoundError)
  = (Ok (Some tt),
     add_events (map Print msg_not_found)
       (add_events [Print msg_running; Run list_upgrades_argv true]
          (raising_world [lit "1"] FileNotFoundError))).
Proof.
  exact (failed_listing_ends_run ascii_decimal 4300 3
           (raising_world [lit "1"] FileNotFoundError) FileNotFoundError
           eq_refl eq_refl).
Defined.

Lemma loop_run_ends_normally_witness :
  fst (run_winget_upgrade_manager ascii_decimal 4300 3
         (report_world [lit "9"; lit "c"] (join_lines [header; lit "-----"; row_foo])))
  = Ok (Some tt)
  \/ fst (run_winget_upgrade_manager ascii_decimal 4300 3
            (report_world [lit "9"; lit "c"] (join_lines [header; lit "-----"; row_foo])))
     = Raise KeyboardInterrupt.
Proof.
  apply (loop_run_ends_normally ascii_decimal 4300 3
           (report_world [lit "9"; lit "c"] (join_lines [header; lit "-----"; row_foo]))).
  cbn. lia.
Defined.

Lemma end_of_input_ends_run_witness :
  run_winget_upgrade_manager ascii_decimal 4300 1
    (report_world [] (join_lines [header; lit "-----"; row_foo]))
  = (Ok (Some tt),
     add_events ([Print msg_running; Run list_upgrades_argv true]
                 ++ menu_events [pkg_foo]
                 ++ [Print (msg_unexpected (lit "EOF when reading a line"))])
       (report_world [] (join_lines [header; lit "-----"; row_foo]))).
Proof.
  assert (Hparse : parse_winget_output
                     (stdout (CompletedProcess 0
                                (join_lines [header; lit "-----"; row_foo]) [])) <> [])
    by (vm_compute; discriminate).
  exact (end_of_input_ends_run ascii_decimal 4300 0
           (report_world [] (join_lines [header; lit "-----"; row_foo]))
           (CompletedProcess 0 (join_lines [header; lit "-----"; row_foo]) [])
           eq_refl eq_refl Hparse eq_refl).
Defined.

Lemma first_known_answer_decides_witness :
  WingetBasic.confirm_loop 3 (sample_world [lit "maybe"; lit " YES "; lit "no"] 1)
  = (Ok (Some tt),
     consumed [lit "no"]
       ((WingetBasic.rejected_events [lit "maybe"] ++ [Input WingetBasic.msg_prompt])
        ++ [Print msg_all_start;
            Run [lit "winget"; lit "upgrade"; lit "--all";
                 lit "--accept-package-agreements"; lit "--accept-source-agreements"]
              false;
            Print msg_all_finished])
       (sample_world [lit "maybe"; lit " YES "; lit "no"] 1)).
Proof.
  assert (Hbad : Forall (fun l => WingetBasic.unknown_answer l = true) [lit "maybe"])
    by (apply Forall_check; vm_compute; reflexivity).
  assert (Hfuel : (length [lit "maybe"] < 3)%nat) by (cbn; lia).
  pose proof (first_known_answer_decides
                (sample_world [lit "maybe"; lit " YES "; lit "no"] 1)
                [lit "maybe"] (lit " YES ") [lit "no"] 3 eq_refl Hbad Hfuel) as H.
  cbv zeta in H. destruct H as [Hyes _].
  exact (Hyes (or_introl eq_refl)).
Defined.

Lemma no_upgrades_words_end_run_witness :
  WingetBasic.run_winget_upgrade_manager 0
    (report_world [lit "yes"] (lit "No upgrades available."))
  = (Ok (Some tt),
     add_events [Print msg_running; Run list_upgrades_argv true;
                 Print (lit "No upgrades available.");
                 Print (NL :: msg_rule52); Print msg_no_upgrades; Print msg_rule52]
       (report_world [lit "yes"] (lit "No upgrades available."))).
Proof.
  exact (no_upgrades_words_end_run 0
           (report_world [lit "yes"] (lit "No upgrades available."))
           (CompletedProcess 0 (lit "No upgrades available.") []) [] (lit ".")
           eq_refl eq_refl eq_refl).
Defined.

Lemma basic_run_ends_normally_witness :
  fst (WingetBasic.run_winget_upgrade_manager 3
         (report_world [lit "what"; lit "n"] (join_lines [header; lit "-----"; row_foo])))
  = Ok (Some tt)
  \/ fst (WingetBasic.run_winget_upgrade_manager 3
            (report_world [lit "what"; lit "n"] (join_lines [header; lit "-----"; row_foo])))
     = Raise KeyboardInterrupt.
Proof.
  apply (basic_run_ends_normally 3
           (report_world [lit "what"; lit "n"] (join_lines [header; lit "-----"; row_foo]))).
  cbn. lia.
Defined.

Lemma other_platform_does_nothing_witness :
  run_winget_upgrade_manager ascii_decimal 4300 3 (linux_world [lit "0"])
  = (Ok (Some tt), add_events [Print msg_not_windows] (linux_world [lit "0"]))
  /\ WingetBasic.run_winget_upgrade_manager 3 (linux_world [lit "0"])
     = (Ok (Some tt), add_events [Print msg_not_windows] (linux_world [lit "0"])).
Proof.
  apply (other_platform_does_nothing ascii_decimal 4300 3 (linux_world [lit "0"])).
  vm_compute. discriminate.
Defined.

Lemma failed_upgrade_keeps_candidate_witness :
  loop_body ascii_decimal 4300 [pkg_foo; pkg_baz]
    (raising_world [lit "2"] (ValueError (lit "embedded null byte")))
  = (Ok (Continue [pkg_foo; pkg_baz]),
     add_events [Print (msg_invalid_input 2)]
       (add_events [Print (msg_one_start pkg_baz);
                    Run (upgrade_one_argv (lit "Baz.Id")) false]
          (read_line (add_events (menu_events [pkg_foo; pkg_baz])
                        (raising_world [lit "2"] (ValueError (lit "embedded null byte"))))))).
Proof.
  assert (Hrange : (1 <= 2 <= Z.of_nat (length [pkg_foo; pkg_baz]))%Z) by (cbn; lia).
  exact (failed_upgrade_keeps_candidate ascii_decimal 4300 [pkg_foo; pkg_baz]
           (raising_world [lit "2"] (ValueError (lit "embedded null byte")))
           (lit "2") [] 2%Z pkg_baz (ValueError (lit "embedded null byte"))
           ascii_decimal_ascii eq_refl eq_refl Hrange eq_refl eq_refl).
Defined.

(** ** Choosing the first candidate every time *)

Section FirstEveryTime.

Variable to_decimal : char -> option Z.
Variable int_max_str_digits : nat.
Hypothesis to_decimal_ascii : ascii_digits to_decimal.

Local Abbreviation one_pass := (loop_body to_decimal int_max_str_digits).
Local Abbreviation the_loop := (selection_loop to_decimal int_max_str_digits).

Lemma py_int_one : py_int to_decimal int_max_str_digits (strip (lit "1")) = Some 1%Z.
Proof.
  change (strip (lit "1")) with [49]. unfold py_int. cbn.
  rewrite (to_decimal_ascii 49) by reflexivity. cbn.
  destruct int_max_str_digits as [|[|k]]; reflexivity.
Qed.

(** The pass that reads ["1"] when the tool returns: the first candidate is
    upgraded and leaves the list. *)
Lemma pass_upgrades_first pkg pkgs w rest p :
  stdin w = lit "1" :: rest ->
  external_tool w (length (runs (events w))) (upgrade_one_argv (id pkg)) = Completed p ->
  let w1 := add_events [Print (msg_one_start pkg);
                        Run (upgrade_one_argv (id pkg)) false;
                        Print (msg_one_finished pkg)]
              (read_line (add_events (menu_events (pkg :: pkgs)) w)) in
  one_pass (pkg :: pkgs) w
  = match pkgs with
    | [] => (Ok Return, add_events [Print msg_all_done] w1)
    | _ :: _ => (Ok (Continue pkgs), w1)
    end.
Proof.
  intros Hin Htool w1.
  assert (Hrange : (1 <= 1 <= Z.of_nat (length (pkg :: pkgs)))%Z) by (cbn [length]; lia).
  destruct (positive_choice_not_command to_decimal int_max_str_digits
              to_decimal_ascii _ _ py_int_one (proj1 Hrange)) as [Hc Hzero].
  unfold loop_body. rewrite (listing_run _ _ _ _ _ Hin). cbv zeta.
  rewrite Hc, Hzero. unfold try_except.
  rewrite (select_one_in_range to_decimal int_max_str_digits (pkg :: pkgs)
             (strip (lit "1")) _ 1%Z pkg p py_int_one Hrange eq_refl).
  - cbn [Z.to_nat Z.sub Z.add Z.opp Z.pos_sub take drop app Pos.to_nat Pos.iter_op].
    subst w1. destruct pkgs; reflexivity.
  - pose proof (runs_before_call (pkg :: pkgs) [] w) as Hbefore.
    cbn [map] in Hbefore. rewrite add_events_nil in Hbefore.
    rewrite Hbefore. exact Htool.
Qed.

Lemma upgrades_in_turn pkgs : forall w rest fuel,
  pkgs <> [] ->
  stdin w = repeat (lit "1") (length pkgs) ++ rest ->
  (forall k argv, exists p, external_tool w k argv = Completed p) ->
  (length pkgs <= fuel)%nat ->
  exists w',
    the_loop fuel pkgs w = (Ok (Some tt), w')
    /\ runs (events w')
       = runs (events w) ++ map (fun pkg => Run (upgrade_one_argv (id pkg)) false) pkgs
    /\ stdin w' = rest.
Proof.
  induction pkgs as [|pkg pkgs IH]; intros w rest fuel Hne Hin Htool Hfuel; [congruence|].
  destruct fuel as [|fuel]; [cbn in Hfuel; lia|].
  cbn [length repeat app] in Hin.
  destruct (Htool (length (runs (events w))) (upgrade_one_argv (id pkg))) as [p Hp].
  pose proof (pass_upgrades_first pkg pkgs w _ p Hin Hp) as Hpass. cbv zeta in Hpass.
  set (w1 := add_events [Print (msg_one_start pkg);
                         Run (upgrade_one_argv (id pkg)) false;
                         Print (msg_one_finished pkg)]
               (read_line (add_events (menu_events (pkg :: pkgs)) w))) in *.
  assert (Hruns1 : runs (events w1)
                   = runs (events w) ++ [Run (upgrade_one_argv (id pkg)) false]).
  { subst w1. cbn [events add_events read_line].
    rewrite !runs_app, runs_menu, app_nil_r. reflexivity. }
  assert (Hstdin1 : stdin w1 = repeat (lit "1") (length pkgs) ++ rest)
    by (subst w1; cbn [stdin add_events read_line]; rewrite Hin; reflexivity).
  cbn [selection_loop].
  destruct pkgs as [|pkg' pkgs']; erewrite bind_ok by exact Hpass.
  - exists (add_events [Print msg_all_done] w1). repeat split.
    + cbn [events add_events]. rewrite runs_app, app_nil_r. exact Hruns1.
    + exact Hstdin1.
  - destruct (IH w1 rest fuel ltac:(discriminate) Hstdin1) as (w' & Hloop & Hruns & Hrest).
    + intros k argv. apply (Htool k argv).
    + cbn [length] in *. lia.
    + exists w'. repeat split; [exact Hloop | | exact Hrest].
      rewrite Hruns, Hruns1, <- app_assoc. reflexivity.
Qed.

(** X20.  Choosing ["1"] once for each candidate upgrades the whole list in
    its order: when every call returns, the loop makes one call [winget
    upgrade --id <id> --accept-package-agreements --accept-source-agreements]
    for each candidate, with its id and without capture, in the order of the
    list, then ends by itself, and leaves the lines after these choices
    unread. *)
Theorem first_every_time_upgrades_all pkgs w rest fuel :
  pkgs <> [] ->
  stdin w = repeat (lit "1") (length pkgs) ++ rest ->
  (forall k argv, exists p, external_tool w k argv = Completed p) ->
  (length pkgs <= fuel)%nat ->
  exists w',
    selection_loop to_decimal int_max_str_digits fuel pkgs w = (Ok (Some tt), w')
    /\ runs (events w')
       = runs (events w)
         ++ map (fun pkg =>
                   Run [lit "winget"; lit "upgrade"; lit "--id"; id pkg;
                        lit "--accept-package-agreements";
                        lit "--accept-source-agreements"] false) pkgs
    /\ stdin w' = rest.
Proof. exact (upgrades_in_turn pkgs w rest fuel). Qed.

End FirstEveryTime.

Lemma first_every_time_upgrades_all_witness :
  exists w',
    selection_loop ascii_decimal 4300 3 [pkg_foo; pkg_baz; pkg_qux]
      (sample_world [lit "1"; lit "1"; lit "1"; lit "c"] 1)
    = (Ok (Some tt), w')
    /\ runs (events w')
       = [Run [lit "winget"; lit "upgrade"; lit "--id"; lit "FooBar.Id";
               lit "--accept-package-agreements"; lit "--accept-source-agreements"] false;
          Run [lit "winget"; lit "upgrade"; lit "--id"; lit "Baz.Id";
               lit "--accept-package-agreements"; lit "--accept-source-agreements"] false;
          Run [lit "winget"; lit "upgrade"; lit "--id"; lit "Qux.Id";
               lit "--accept-package-agreements"; lit "--accept-source-agreements"] false]
    /\ stdin w' = [lit "c"].
Proof.
  assert (Hne : [pkg_foo; pkg_baz; pkg_qux] <> []) by discriminate.
  assert (Hfuel : (length [pkg_foo; pkg_baz; pkg_qux] <= 3)%nat) by (cbn; lia).
  assert (Htool : forall k argv, exists p,
            external_tool (sample_world [lit "1"; lit "1"; lit "1"; lit "c"] 1) k argv
            = Completed p)
    by (intros k argv; eexists; reflexivity).
  exact (first_every_time_upgrades_all ascii_decimal 4300 ascii_decimal_ascii
           [pkg_foo; pkg_baz; pkg_qux]
           (sample_world [lit "1"; lit "1"; lit "1"; lit "c"] 1) [lit "c"] 3
           Hne eq_refl Htool Hfuel).
Defined.
